(** * Clipboard manager: ownership-scoped CRUD over three tables

    A shallow embedding of [db/tables.ts] (the three tables) and of
    [src/actions/index.ts] (the nine server actions), followed by the
    properties of the actions.

    Conventions of the embedding:
    - a table is the list of its rows, in insertion order;
    - a text is stored and read back as it was written, which is what the
      storage does for a text without the NUL character; it reads a text with
      one back cut at it, which the embedding does not follow, so a property
      that says which text a created row holds is stated for texts without it;
    - a [Date] is a number of milliseconds, [new Date()] and
      [crypto.randomUUID()] are arguments of the action that calls them;
    - an action is a function from the database to an outcome: what it
      returned or threw, the database it left, and the storage statements
      it issued, in order.  A throw keeps the database as the statements
      issued so far left it: nothing is rolled back. *)

From Stdlib Require Import String List ZArith Bool Arith Lia Permutation.
Import ListNotations.

Local Open Scope string_scope.
Local Open Scope list_scope.

(** ** Rows ([db/tables.ts]) *)

(** The time value of a JavaScript date, in milliseconds from the epoch. *)
Definition Date := Z.

Module ClipboardItem.
Record t := mk {
  id : string;
  userId : string;
  contentType : option string;
  content : string;
  normalizedPreview : option string;
  sourceApp : option string;
  sourceDevice : option string;
  isPinned : bool;
  isArchived : bool;
  createdAt : Date;
  lastCopiedAt : option Date
}.
End ClipboardItem.

Module ClipboardCollection.
Record t := mk {
  id : string;
  userId : string;
  name : string;
  description : option string;
  icon : option string;
  isDefault : bool;
  createdAt : Date;
  updatedAt : Date
}.
End ClipboardCollection.

Module ClipboardCollectionItem.
Record t := mk {
  id : string;
  collectionId : string;
  itemId : string;
  addedAt : Date
}.
End ClipboardCollectionItem.

Record Db := mkDb {
  ClipboardItems : list ClipboardItem.t;
  ClipboardCollections : list ClipboardCollection.t;
  ClipboardCollectionItems : list ClipboardCollectionItem.t
}.

Definition emptyDb : Db := mkDb [] [] [].

(** ** Outcomes and the action monad *)

Inductive TableName := ITEMS | COLLECTIONS | LINKS.

Inductive Access :=
| SELECT (t : TableName)
| INSERT (t : TableName)
| UPDATE (t : TableName)
| DELETE (t : TableName).

(** [UNAUTHORIZED] and [NOT_FOUND] are the codes the actions throw themselves;
    [BAD_REQUEST] is the code of the input error [defineAction] throws when the
    input does not parse; [CONSTRAINT] is the storage refusing a second row
    with an existing primary key. *)
Inductive ErrorCode := UNAUTHORIZED | NOT_FOUND | BAD_REQUEST | CONSTRAINT.

Inductive Result (A : Type) :=
| Ok (a : A)
| Throw (e : ErrorCode).
Arguments Ok {A} a.
Arguments Throw {A} e.

Record Outcome (A : Type) := mkOutcome {
  result : Result A;
  final : Db;
  trace : list Access
}.
Arguments mkOutcome {A} _ _ _.
Arguments result {A} _.
Arguments final {A} _.
Arguments trace {A} _.

Definition Action (A : Type) := Db -> Outcome A.

Definition ret {A} (a : A) : Action A :=
  fun db => mkOutcome (Ok a) db [].

Definition throw {A} (e : ErrorCode) : Action A :=
  fun db => mkOutcome (Throw e) db [].

Definition bind {A B} (m : Action A) (k : A -> Action B) : Action B :=
  fun db =>
    let o := m db in
    match result o with
    | Ok a =>
        let o' := k a (final o) in
        mkOutcome (result o') (final o') (trace o ++ trace o')
    | Throw e => mkOutcome (Throw e) (final o) (trace o)
    end.

Declare Scope action_scope.
Delimit Scope action_scope with action.
Notation "x <- m ;; k" := (bind m (fun x => k))
  (at level 61, m at next level, right associativity) : action_scope.
Notation "m ;; k" := (bind m (fun _ => k))
  (at level 61, right associativity) : action_scope.
Local Open Scope action_scope.

(** ** Storage statements

    A table of the database, seen through its rows, its primary key and the
    way to put the rows back. *)

Record Table (R : Type) := mkTable {
  tname : TableName;
  pkey : R -> string;
  rows : Db -> list R;
  put : list R -> Db -> Db
}.
Arguments mkTable {R} _ _ _ _.
Arguments tname {R} _.
Arguments pkey {R} _.
Arguments rows {R} _.
Arguments put {R} _.

Definition ItemsT : Table ClipboardItem.t :=
  mkTable ITEMS ClipboardItem.id ClipboardItems
    (fun l db => mkDb l (ClipboardCollections db) (ClipboardCollectionItems db)).

Definition CollectionsT : Table ClipboardCollection.t :=
  mkTable COLLECTIONS ClipboardCollection.id ClipboardCollections
    (fun l db => mkDb (ClipboardItems db) l (ClipboardCollectionItems db)).

Definition LinksT : Table ClipboardCollectionItem.t :=
  mkTable LINKS ClipboardCollectionItem.id ClipboardCollectionItems
    (fun l db => mkDb (ClipboardItems db) (ClipboardCollections db) l).

(** [db.select().from(T).where(w)].  The statement has no ORDER BY: the order
    of the rows it gives is the order of this list, a convention of the
    embedding that no property below relies on. *)
Definition select {R} (T : Table R) (cond : R -> bool) : Action (list R) :=
  fun db => mkOutcome (Ok (filter cond (rows T db))) db [SELECT (tname T)].

(** [db.insert(T).values(v).returning()]: the storage refuses a row whose
    primary key is already there. *)
Definition insert {R} (T : Table R) (v : R) : Action (list R) :=
  fun db =>
    if existsb (fun r => pkey T r =? pkey T v) (rows T db)
    then mkOutcome (Throw CONSTRAINT) db [INSERT (tname T)]
    else mkOutcome (Ok [v]) (put T (rows T db ++ [v]) db) [INSERT (tname T)].

(** [db.update(T).set(s).where(w).returning()] *)
Definition update {R} (T : Table R) (set : R -> R) (cond : R -> bool)
  : Action (list R) :=
  fun db =>
    mkOutcome (Ok (map set (filter cond (rows T db))))
              (put T (map (fun r => if cond r then set r else r) (rows T db)) db)
              [UPDATE (tname T)].

(** [db.delete(T).where(w)], giving [rowsAffected]. *)
Definition delete {R} (T : Table R) (cond : R -> bool) : Action nat :=
  fun db =>
    mkOutcome (Ok (length (filter cond (rows T db))))
              (put T (filter (fun r => negb (cond r)) (rows T db)) db)
              [DELETE (tname T)].

(** [inArray(column, values)] *)
Definition inArray (x : string) (values : list string) : bool :=
  existsb (String.eqb x) values.

(** [const [x] = rows]: the first row, or [undefined]. *)
Definition first {R} (l : list R) : option R :=
  match l with
  | [] => None
  | x :: _ => Some x
  end.

(** ** Request context *)

Record User := mkUser { uid : string }.
Record Locals := mkLocals { user : option User }.
Record ActionAPIContext := mkContext { locals : option Locals }.

Definition signedIn (u : string) : ActionAPIContext :=
  mkContext (Some (mkLocals (Some (mkUser u)))).

Definition requireUser (context : ActionAPIContext) : Action User :=
  match locals context with
  | None => throw UNAUTHORIZED
  | Some l =>
      match user l with
      | None => throw UNAUTHORIZED
      | Some u => ret u
      end
  end.

Definition getOwnedCollection (collectionId userId : string)
  : Action ClipboardCollection.t :=
  found <- select CollectionsT
             (fun c => (ClipboardCollection.id c =? collectionId)
                       && (ClipboardCollection.userId c =? userId)) ;;
  match first found with
  | None => throw NOT_FOUND
  | Some collection => ret collection
  end.

Definition getOwnedItem (itemId userId : string) : Action ClipboardItem.t :=
  found <- select ItemsT
             (fun i => (ClipboardItem.id i =? itemId)
                       && (ClipboardItem.userId i =? userId)) ;;
  match first found with
  | None => throw NOT_FOUND
  | Some item => ret item
  end.

(** [defineAction({ input, handler })]: the input is parsed against the
    schema first; an input that does not parse is thrown as an input error
    and the handler does not run. *)
Definition defineAction {I P A} (input : I -> option P)
  (handler : P -> ActionAPIContext -> Action A)
  : I -> ActionAPIContext -> Action A :=
  fun raw context =>
    match input raw with
    | None => throw BAD_REQUEST
    | Some parsed => handler parsed context
    end.

(** [z.string().min(1)] *)
Definition min1 (s : string) : bool := Nat.leb 1 (String.length s).

(** [z.date()]: a date whose time value is a number.  A JavaScript date holds
    a time value at most 8.64e15 milliseconds from the epoch; one built from
    anything beyond is an invalid date, which the schema refuses. *)
Definition zDate (d : Date) : bool := (Z.abs d <=? 8640000000000000)%Z.

(** [check.optional()] *)
Definition optional {A} (check : A -> bool) (x : option A) : bool :=
  match x with Some v => check v | None => true end.

(** [x !== undefined] *)
Definition defined {A} (x : option A) : bool :=
  match x with Some _ => true | None => false end.

(** [x ?? d] *)
Definition orElse {A} (x : option A) (d : A) : A :=
  match x with Some v => v | None => d end.

(** [...(x !== undefined ? { column: x } : {})] on a nullable column *)
Definition setIfDefined {A} (x : option A) (old : option A) : option A :=
  match x with Some v => Some v | None => old end.

Record Response (D : Type) := mkResponse { success : bool; data : D }.
Arguments mkResponse {D} _ _.
Arguments success {D} _.
Arguments data {D} _.

Record Listing (R : Type) := mkListing { items : list R; total : nat }.
Arguments mkListing {R} _ _.
Arguments items {R} _.
Arguments total {R} _.

(** ** Inputs and their schemas ([src/actions/index.ts])

    An input record is what the client sends: an optional key is an [option].
    A schema gives the parsed input, or nothing when the input is refused. *)

Module CreateClipboardItem.
Record Input := mk {
  contentType : option string;
  content : string;
  normalizedPreview : option string;
  sourceApp : option string;
  sourceDevice : option string;
  isPinned : option bool;
  isArchived : option bool;
  lastCopiedAt : option Date
}.
Definition schema (i : Input) : option Input :=
  if min1 (content i) && optional zDate (lastCopiedAt i) then Some i else None.
End CreateClipboardItem.

Module UpdateClipboardItem.
Record Input := mk {
  id : string;
  contentType : option string;
  content : option string;
  normalizedPreview : option string;
  sourceApp : option string;
  sourceDevice : option string;
  isPinned : option bool;
  isArchived : option bool;
  lastCopiedAt : option Date
}.
Definition refine (input : Input) : bool :=
  defined (contentType input) ||
  defined (content input) ||
  defined (normalizedPreview input) ||
  defined (sourceApp input) ||
  defined (sourceDevice input) ||
  defined (isPinned input) ||
  defined (isArchived input) ||
  defined (lastCopiedAt input).
Definition schema (i : Input) : option Input :=
  if min1 (id i) && optional zDate (lastCopiedAt i) && refine i
  then Some i else None.
End UpdateClipboardItem.

Module ListClipboardItems.
Record Input := mk {
  includeArchived : option bool;
  pinnedOnly : option bool
}.
Record Parsed := mkParsed {
  includeArchived' : bool;
  pinnedOnly' : bool
}.
Definition schema (i : Input) : option Parsed :=
  Some (mkParsed (orElse (includeArchived i) false)
                 (orElse (pinnedOnly i) false)).
End ListClipboardItems.

Module CreateCollection.
Record Input := mk {
  name : string;
  description : option string;
  icon : option string;
  isDefault : option bool
}.
Definition schema (i : Input) : option Input :=
  if min1 (name i) then Some i else None.
End CreateCollection.

Module UpdateCollection.
Record Input := mk {
  id : string;
  name : option string;
  description : option string;
  icon : option string;
  isDefault : option bool
}.
Definition refine (input : Input) : bool :=
  defined (name input) ||
  defined (description input) ||
  defined (icon input) ||
  defined (isDefault input).
Definition schema (i : Input) : option Input :=
  if min1 (id i)
     && match name i with Some n => min1 n | None => true end
     && refine i
  then Some i else None.
End UpdateCollection.

Module LinkInput.
Record Input := mk {
  collectionId : string;
  itemId : string
}.
Definition schema (i : Input) : option Input :=
  if min1 (collectionId i) && min1 (itemId i) then Some i else None.
End LinkInput.

Module ListCollectionItems.
Record Input := mk { collectionId : string }.
Definition schema (i : Input) : option Input :=
  if min1 (collectionId i) then Some i else None.
End ListCollectionItems.

(** ** The actions *)

Definition createClipboardItem (now : Date) (randomUUID : string) :=
  defineAction CreateClipboardItem.schema (fun input context =>
    user <- requireUser context ;;
    inserted <- insert ItemsT
      (ClipboardItem.mk
         randomUUID
         (uid user)
         (CreateClipboardItem.contentType input)
         (CreateClipboardItem.content input)
         (CreateClipboardItem.normalizedPreview input)
         (CreateClipboardItem.sourceApp input)
         (CreateClipboardItem.sourceDevice input)
         (orElse (CreateClipboardItem.isPinned input) false)
         (orElse (CreateClipboardItem.isArchived input) false)
         now
         (CreateClipboardItem.lastCopiedAt input)) ;;
    ret (mkResponse true (first inserted))).

(** The object given to [.set] by [updateClipboardItem], applied to a row. *)
Definition setClipboardItem (input : UpdateClipboardItem.Input)
  (r : ClipboardItem.t) : ClipboardItem.t :=
  ClipboardItem.mk
    (ClipboardItem.id r)
    (ClipboardItem.userId r)
    (setIfDefined (UpdateClipboardItem.contentType input) (ClipboardItem.contentType r))
    (orElse (UpdateClipboardItem.content input) (ClipboardItem.content r))
    (setIfDefined (UpdateClipboardItem.normalizedPreview input)
                  (ClipboardItem.normalizedPreview r))
    (setIfDefined (UpdateClipboardItem.sourceApp input) (ClipboardItem.sourceApp r))
    (setIfDefined (UpdateClipboardItem.sourceDevice input) (ClipboardItem.sourceDevice r))
    (orElse (UpdateClipboardItem.isPinned input) (ClipboardItem.isPinned r))
    (orElse (UpdateClipboardItem.isArchived input) (ClipboardItem.isArchived r))
    (ClipboardItem.createdAt r)
    (setIfDefined (UpdateClipboardItem.lastCopiedAt input) (ClipboardItem.lastCopiedAt r)).

Definition updateClipboardItem :=
  defineAction UpdateClipboardItem.schema (fun input context =>
    user <- requireUser context ;;
    getOwnedItem (UpdateClipboardItem.id input) (uid user) ;;
    updated <- update ItemsT (setClipboardItem input)
                 (fun i => ClipboardItem.id i =? UpdateClipboardItem.id input) ;;
    ret (mkResponse true (first updated))).

Definition listClipboardItems :=
  defineAction ListClipboardItems.schema (fun input context =>
    user <- requireUser context ;;
    let filters := [fun i => ClipboardItem.userId i =? uid user] in
    let filters :=
      if negb (ListClipboardItems.includeArchived' input)
      then filters ++ [fun i => Bool.eqb (ClipboardItem.isArchived i) false]
      else filters in
    let filters :=
      if ListClipboardItems.pinnedOnly' input
      then filters ++ [fun i => Bool.eqb (ClipboardItem.isPinned i) true]
      else filters in
    found <- select ItemsT (fun i => forallb (fun f => f i) filters) ;;
    ret (mkResponse true (mkListing found (length found)))).

Definition createCollection (now : Date) (randomUUID : string) :=
  defineAction CreateCollection.schema (fun input context =>
    user <- requireUser context ;;
    inserted <- insert CollectionsT
      (ClipboardCollection.mk
         randomUUID
         (uid user)
         (CreateCollection.name input)
         (CreateCollection.description input)
         (CreateCollection.icon input)
         (orElse (CreateCollection.isDefault input) false)
         now
         now) ;;
    ret (mkResponse true (first inserted))).

(** The object given to [.set] by [updateCollection], applied to a row. *)
Definition setCollection (now : Date) (input : UpdateCollection.Input)
  (r : ClipboardCollection.t) : ClipboardCollection.t :=
  ClipboardCollection.mk
    (ClipboardCollection.id r)
    (ClipboardCollection.userId r)
    (orElse (UpdateCollection.name input) (ClipboardCollection.name r))
    (setIfDefined (UpdateCollection.description input) (ClipboardCollection.description r))
    (setIfDefined (UpdateCollection.icon input) (ClipboardCollection.icon r))
    (orElse (UpdateCollection.isDefault input) (ClipboardCollection.isDefault r))
    (ClipboardCollection.createdAt r)
    now.

Definition updateCollection (now : Date) :=
  defineAction UpdateCollection.schema (fun input context =>
    user <- requireUser context ;;
    getOwnedCollection (UpdateCollection.id input) (uid user) ;;
    updated <- update CollectionsT (setCollection now input)
                 (fun c => ClipboardCollection.id c =? UpdateCollection.id input) ;;
    ret (mkResponse true (first updated))).

Definition listCollections :=
  defineAction (fun _ : unit => Some tt) (fun _input context =>
    user <- requireUser context ;;
    collections <- select CollectionsT
                     (fun c => ClipboardCollection.userId c =? uid user) ;;
    ret (mkResponse true (mkListing collections (length collections)))).

Definition addItemToCollection (now : Date) (randomUUID : string) :=
  defineAction LinkInput.schema (fun input context =>
    user <- requireUser context ;;
    getOwnedCollection (LinkInput.collectionId input) (uid user) ;;
    getOwnedItem (LinkInput.itemId input) (uid user) ;;
    inserted <- insert LinksT
      (ClipboardCollectionItem.mk
         randomUUID
         (LinkInput.collectionId input)
         (LinkInput.itemId input)
         now) ;;
    ret (mkResponse true (first inserted))).

Definition removeItemFromCollection :=
  defineAction LinkInput.schema (fun input context =>
    user <- requireUser context ;;
    getOwnedCollection (LinkInput.collectionId input) (uid user) ;;
    getOwnedItem (LinkInput.itemId input) (uid user) ;;
    rowsAffected <- delete LinksT
      (fun l => (ClipboardCollectionItem.collectionId l =? LinkInput.collectionId input)
                && (ClipboardCollectionItem.itemId l =? LinkInput.itemId input)) ;;
    if Nat.eqb rowsAffected 0
    then throw NOT_FOUND
    else ret (mkResponse true tt)).

Definition listCollectionItems :=
  defineAction ListCollectionItems.schema (fun input context =>
    user <- requireUser context ;;
    getOwnedCollection (ListCollectionItems.collectionId input) (uid user) ;;
    links <- select LinksT
               (fun l => ClipboardCollectionItem.collectionId l
                         =? ListCollectionItems.collectionId input) ;;
    let itemIds := map ClipboardCollectionItem.itemId links in
    if Nat.eqb (length itemIds) 0
    then ret (mkResponse true (mkListing [] 0))
    else
      found <- select ItemsT (fun i => inArray (ClipboardItem.id i) itemIds) ;;
      ret (mkResponse true (mkListing found (length found)))).

(** ** Requests and reachable databases *)

Inductive Request :=
| CreateClipboardItemReq (now : Date) (randomUUID : string)
    (input : CreateClipboardItem.Input)
| UpdateClipboardItemReq (input : UpdateClipboardItem.Input)
| ListClipboardItemsReq (input : ListClipboardItems.Input)
| CreateCollectionReq (now : Date) (randomUUID : string)
    (input : CreateCollection.Input)
| UpdateCollectionReq (now : Date) (input : UpdateCollection.Input)
| ListCollectionsReq
| AddItemToCollectionReq (now : Date) (randomUUID : string)
    (input : LinkInput.Input)
| RemoveItemFromCollectionReq (input : LinkInput.Input)
| ListCollectionItemsReq (input : ListCollectionItems.Input).

(** An outcome without the returned value. *)
Definition forget {A} (o : Outcome A) : Outcome unit :=
  mkOutcome (match result o with Ok _ => Ok tt | Throw e => Throw e end)
            (final o) (trace o).

Definition server (req : Request) (context : ActionAPIContext) : Action unit :=
  fun db =>
    match req with
    | CreateClipboardItemReq now u i => forget (createClipboardItem now u i context db)
    | UpdateClipboardItemReq i => forget (updateClipboardItem i context db)
    | ListClipboardItemsReq i => forget (listClipboardItems i context db)
    | CreateCollectionReq now u i => forget (createCollection now u i context db)
    | UpdateCollectionReq now i => forget (updateCollection now i context db)
    | ListCollectionsReq => forget (listCollections tt context db)
    | AddItemToCollectionReq now u i => forget (addItemToCollection now u i context db)
    | RemoveItemFromCollectionReq i => forget (removeItemFromCollection i context db)
    | ListCollectionItemsReq i => forget (listCollectionItems i context db)
    end.

(** Whether the input of a request parses against the schema of its action. *)
Definition parses (req : Request) : bool :=
  match req with
  | CreateClipboardItemReq _ _ i => defined (CreateClipboardItem.schema i)
  | UpdateClipboardItemReq i => defined (UpdateClipboardItem.schema i)
  | ListClipboardItemsReq i => defined (ListClipboardItems.schema i)
  | CreateCollectionReq _ _ i => defined (CreateCollection.schema i)
  | UpdateCollectionReq _ i => defined (UpdateCollection.schema i)
  | ListCollectionsReq => true
  | AddItemToCollectionReq _ _ i => defined (LinkInput.schema i)
  | RemoveItemFromCollectionReq i => defined (LinkInput.schema i)
  | ListCollectionItemsReq i => defined (ListCollectionItems.schema i)
  end.

(** [crypto.randomUUID()] gives a string of 36 characters. *)
Definition isUUID (s : string) : bool := Nat.eqb (String.length s) 36.

(** Whether the identifier a request was given for its new row is one
    [crypto.randomUUID()] can give. *)
Definition uuidOk (req : Request) : bool :=
  match req with
  | CreateClipboardItemReq _ u _ => isUUID u
  | CreateCollectionReq _ u _ => isUUID u
  | AddItemToCollectionReq _ u _ => isUUID u
  | _ => true
  end.

(** The databases the server can be in: the empty one, and the one any request
    leaves from a reachable one. *)
Inductive reachable : Db -> Prop :=
| reachable_empty : reachable emptyDb
| reachable_step db req context :
    reachable db -> uuidOk req = true ->
    reachable (final (server req context db)).

(** The database after a sequence of requests. *)
Fixpoint serve (reqs : list (Request * ActionAPIContext)) (db : Db) : Db :=
  match reqs with
  | [] => db
  | (req, context) :: rest => serve rest (final (server req context db))
  end.

(** What the schema of [db/tables.ts] and the ownership checks of the actions
    maintain: primary keys are unique and are UUIDs, and a link joins a
    collection and an item of one owner. *)
Record consistent (db : Db) : Prop := mkConsistent {
  items_pk : NoDup (map ClipboardItem.id (ClipboardItems db));
  collections_pk : NoDup (map ClipboardCollection.id (ClipboardCollections db));
  links_pk : NoDup (map ClipboardCollectionItem.id (ClipboardCollectionItems db));
  items_uuid : forall i, In i (ClipboardItems db) ->
    isUUID (ClipboardItem.id i) = true;
  collections_uuid : forall c, In c (ClipboardCollections db) ->
    isUUID (ClipboardCollection.id c) = true;
  links_owned : forall l, In l (ClipboardCollectionItems db) ->
    exists c i,
      In c (ClipboardCollections db) /\ In i (ClipboardItems db) /\
      ClipboardCollection.id c = ClipboardCollectionItem.collectionId l /\
      ClipboardItem.id i = ClipboardCollectionItem.itemId l /\
      ClipboardCollection.userId c = ClipboardItem.userId i
}.

(** ** Vocabulary of the properties *)

(** A request context without a signed-in user. *)
Definition anonymous (context : ActionAPIContext) : Prop :=
  locals context = None \/ locals context = Some (mkLocals None).

(** What a partial update may do to a column: a supplied value is written, an
    absent key leaves the column as it was. *)
Definition written {A} (supplied : option A) (before after : A) : Prop :=
  match supplied with
  | Some v => after = v
  | None => after = before
  end.

Definition writtenNullable {A} (supplied : option A) (before after : option A)
  : Prop :=
  match supplied with
  | Some v => after = Some v
  | None => after = before
  end.

(** An item row before and after an update that touched only the supplied
    fields. *)
Record onlySuppliedChanged (input : UpdateClipboardItem.Input)
  (before after : ClipboardItem.t) : Prop := mkOnlySuppliedChanged {
  same_id : ClipboardItem.id after = ClipboardItem.id before;
  same_userId : ClipboardItem.userId after = ClipboardItem.userId before;
  same_createdAt : ClipboardItem.createdAt after = ClipboardItem.createdAt before;
  w_contentType :
    writtenNullable (UpdateClipboardItem.contentType input)
      (ClipboardItem.contentType before) (ClipboardItem.contentType after);
  w_content :
    written (UpdateClipboardItem.content input)
      (ClipboardItem.content before) (ClipboardItem.content after);
  w_normalizedPreview :
    writtenNullable (UpdateClipboardItem.normalizedPreview input)
      (ClipboardItem.normalizedPreview before)
      (ClipboardItem.normalizedPreview after);
  w_sourceApp :
    writtenNullable (UpdateClipboardItem.sourceApp input)
      (ClipboardItem.sourceApp before) (ClipboardItem.sourceApp after);
  w_sourceDevice :
    writtenNullable (UpdateClipboardItem.sourceDevice input)
      (ClipboardItem.sourceDevice before) (ClipboardItem.sourceDevice after);
  w_isPinned :
    written (UpdateClipboardItem.isPinned input)
      (ClipboardItem.isPinned before) (ClipboardItem.isPinned after);
  w_isArchived :
    written (UpdateClipboardItem.isArchived input)
      (ClipboardItem.isArchived before) (ClipboardItem.isArchived after);
  w_lastCopiedAt :
    writtenNullable (UpdateClipboardItem.lastCopiedAt input)
      (ClipboardItem.lastCopiedAt before) (ClipboardItem.lastCopiedAt after)
}.

(** The link rows of a collection, and those joining it to one item. *)
Definition linksOf (collectionId : string) (db : Db)
  : list ClipboardCollectionItem.t :=
  filter (fun l => ClipboardCollectionItem.collectionId l =? collectionId)
         (ClipboardCollectionItems db).

Definition linksBetween (collectionId itemId : string) (db : Db)
  : list ClipboardCollectionItem.t :=
  filter (fun l => (ClipboardCollectionItem.collectionId l =? collectionId)
                   && (ClipboardCollectionItem.itemId l =? itemId))
         (ClipboardCollectionItems db).

(** A text without the NUL character: the storage hands it back as it was
    written. *)
Fixpoint noNul (s : string) : bool :=
  match s with
  | EmptyString => true
  | String c rest => negb (Ascii.eqb c Ascii.zero) && noNul rest
  end.

(** A request context whose user id, if any, is such a text. *)
Definition callerNoNul (context : ActionAPIContext) : bool :=
  match locals context with
  | Some l => optional (fun u => noNul (uid u)) (user l)
  | None => true
  end.

(** Inputs whose texts are such texts. *)
Definition noNulCreateClipboardItem (i : CreateClipboardItem.Input) : bool :=
  noNul (CreateClipboardItem.content i)
  && optional noNul (CreateClipboardItem.contentType i)
  && optional noNul (CreateClipboardItem.normalizedPreview i)
  && optional noNul (CreateClipboardItem.sourceApp i)
  && optional noNul (CreateClipboardItem.sourceDevice i).

Definition noNulUpdateClipboardItem (i : UpdateClipboardItem.Input) : bool :=
  optional noNul (UpdateClipboardItem.content i)
  && optional noNul (UpdateClipboardItem.contentType i)
  && optional noNul (UpdateClipboardItem.normalizedPreview i)
  && optional noNul (UpdateClipboardItem.sourceApp i)
  && optional noNul (UpdateClipboardItem.sourceDevice i).

Definition noNulCreateCollection (i : CreateCollection.Input) : bool :=
  noNul (CreateCollection.name i)
  && optional noNul (CreateCollection.description i)
  && optional noNul (CreateCollection.icon i).

Definition noNulUpdateCollection (i : UpdateCollection.Input) : bool :=
  optional noNul (UpdateCollection.name i)
  && optional noNul (UpdateCollection.description i)
  && optional noNul (UpdateCollection.icon i).

(** A storage statement that reads, and one that writes. *)
Definition isSelect (a : Access) : bool :=
  match a with SELECT _ => true | _ => false end.

Definition isWrite (a : Access) : bool := negb (isSelect a).

(** The rows of a user in the two owned tables, and the link rows of the
    collections of a user. *)
Definition itemsOf (userId : string) (db : Db) : list ClipboardItem.t :=
  filter (fun i => ClipboardItem.userId i =? userId) (ClipboardItems db).

Definition collectionsOf (userId : string) (db : Db) : list ClipboardCollection.t :=
  filter (fun c => ClipboardCollection.userId c =? userId) (ClipboardCollections db).

Definition ownsCollection (userId collectionId : string) (db : Db) : bool :=
  existsb (fun c => (ClipboardCollection.id c =? collectionId)
                    && (ClipboardCollection.userId c =? userId))
          (ClipboardCollections db).

Definition linksOfUser (userId : string) (db : Db)
  : list ClipboardCollectionItem.t :=
  filter (fun l => ownsCollection userId (ClipboardCollectionItem.collectionId l) db)
         (ClipboardCollectionItems db).

(** The ways a request changes the database, read off the six actions that
    write: each constructor is one action having passed its schema and its
    guards, with the database its statement leaves. *)
Inductive change (context : ActionAPIContext) (db : Db) : Request -> Db -> Prop :=
| change_createClipboardItem now uuid input u :
    locals context = Some (mkLocals (Some u)) ->
    min1 (CreateClipboardItem.content input) = true ->
    existsb (fun r => ClipboardItem.id r =? uuid) (ClipboardItems db) = false ->
    change context db (CreateClipboardItemReq now uuid input)
      (put ItemsT
         (ClipboardItems db ++
          [ClipboardItem.mk uuid (uid u)
             (CreateClipboardItem.contentType input)
             (CreateClipboardItem.content input)
             (CreateClipboardItem.normalizedPreview input)
             (CreateClipboardItem.sourceApp input)
             (CreateClipboardItem.sourceDevice input)
             (orElse (CreateClipboardItem.isPinned input) false)
             (orElse (CreateClipboardItem.isArchived input) false)
             now
             (CreateClipboardItem.lastCopiedAt input)]) db)
| change_updateClipboardItem input u it :
    locals context = Some (mkLocals (Some u)) ->
    In it (ClipboardItems db) ->
    ClipboardItem.id it = UpdateClipboardItem.id input ->
    ClipboardItem.userId it = uid u ->
    change context db (UpdateClipboardItemReq input)
      (put ItemsT
         (map (fun r => if ClipboardItem.id r =? UpdateClipboardItem.id input
                        then setClipboardItem input r else r)
              (ClipboardItems db)) db)
| change_createCollection now uuid input u :
    locals context = Some (mkLocals (Some u)) ->
    min1 (CreateCollection.name input) = true ->
    existsb (fun r => ClipboardCollection.id r =? uuid) (ClipboardCollections db)
      = false ->
    change context db (CreateCollectionReq now uuid input)
      (put CollectionsT
         (ClipboardCollections db ++
          [ClipboardCollection.mk uuid (uid u)
             (CreateCollection.name input)
             (CreateCollection.description input)
             (CreateCollection.icon input)
             (orElse (CreateCollection.isDefault input) false)
             now now]) db)
| change_updateCollection now input u c :
    locals context = Some (mkLocals (Some u)) ->
    match UpdateCollection.name input with
    | Some n => min1 n = true
    | None => True
    end ->
    In c (ClipboardCollections db) ->
    ClipboardCollection.id c = UpdateCollection.id input ->
    ClipboardCollection.userId c = uid u ->
    change context db (UpdateCollectionReq now input)
      (put CollectionsT
         (map (fun r => if ClipboardCollection.id r =? UpdateCollection.id input
                        then setCollection now input r else r)
              (ClipboardCollections db)) db)
| change_addItemToCollection now uuid input u c it :
    locals context = Some (mkLocals (Some u)) ->
    In c (ClipboardCollections db) ->
    ClipboardCollection.id c = LinkInput.collectionId input ->
    ClipboardCollection.userId c = uid u ->
    In it (ClipboardItems db) ->
    ClipboardItem.id it = LinkInput.itemId input ->
    ClipboardItem.userId it = uid u ->
    existsb (fun r => ClipboardCollectionItem.id r =? uuid)
      (ClipboardCollectionItems db) = false ->
    change context db (AddItemToCollectionReq now uuid input)
      (put LinksT
         (ClipboardCollectionItems db ++
          [ClipboardCollectionItem.mk uuid (LinkInput.collectionId input)
             (LinkInput.itemId input) now]) db)
| change_removeItemFromCollection input u c it :
    locals context = Some (mkLocals (Some u)) ->
    In c (ClipboardCollections db) ->
    ClipboardCollection.id c = LinkInput.collectionId input ->
    ClipboardCollection.userId c = uid u ->
    In it (ClipboardItems db) ->
    ClipboardItem.id it = LinkInput.itemId input ->
    ClipboardItem.userId it = uid u ->
    change context db (RemoveItemFromCollectionReq input)
      (put LinksT
         (filter
            (fun l =>
               negb ((ClipboardCollectionItem.collectionId l
                        =? LinkInput.collectionId input)
                     && (ClipboardCollectionItem.itemId l
                           =? LinkInput.itemId input)))
            (ClipboardCollectionItems db)) db).

(** ** A small history, for examples

    Alice saves three snippets (pinned and archived, pinned, plain), makes a
    collection and links the first snippet to it twice and the second once;
    Bob saves a snippet and makes a collection. *)
Module Demo.
Definition alice := signedIn "alice".
Definition bob := signedIn "bob".
Definition nobody := mkContext None.

Definition i1 := "00000000-0000-4000-8000-0000000000a1".
Definition i2 := "00000000-0000-4000-8000-0000000000a2".
Definition i3 := "00000000-0000-4000-8000-0000000000a3".
Definition i4 := "00000000-0000-4000-8000-0000000000b1".
Definition c1 := "00000000-0000-4000-8000-0000000000c1".
Definition c2 := "00000000-0000-4000-8000-0000000000c2".
Definition l1 := "00000000-0000-4000-8000-0000000000d1".
Definition l2 := "00000000-0000-4000-8000-0000000000d2".
Definition l3 := "00000000-0000-4000-8000-0000000000d3".

Definition snippet (content : string) (pinned archived : bool)
  : CreateClipboardItem.Input :=
  CreateClipboardItem.mk (Some "text") content None None None
    (Some pinned) (Some archived) None.

Definition history : list (Request * ActionAPIContext) :=
  [ (CreateClipboardItemReq 100 i1 (snippet "first" true true), alice);
    (CreateClipboardItemReq 101 i2 (snippet "second" true false), alice);
    (CreateClipboardItemReq 102 i3 (snippet "third" false false), alice);
    (CreateCollectionReq 103 c1 (CreateCollection.mk "work" None None None), alice);
    (AddItemToCollectionReq 104 l1 (LinkInput.mk c1 i1), alice);
    (AddItemToCollectionReq 105 l2 (LinkInput.mk c1 i1), alice);
    (AddItemToCollectionReq 106 l3 (LinkInput.mk c1 i2), alice);
    (CreateClipboardItemReq 107 i4 (snippet "other" false false), bob);
    (CreateCollectionReq 108 c2 (CreateCollection.mk "home" None None None), bob) ]%Z.

Definition db : Db := serve history emptyDb.

Definition first_row : ClipboardItem.t :=
  ClipboardItem.mk i1 "alice" (Some "text") "first" None None None
    true true 100%Z None.
Definition second_row : ClipboardItem.t :=
  ClipboardItem.mk i2 "alice" (Some "text") "second" None None None
    true false 101%Z None.
Definition third_row : ClipboardItem.t :=
  ClipboardItem.mk i3 "alice" (Some "text") "third" None None None
    false false 102%Z None.
Definition work_row : ClipboardCollection.t :=
  ClipboardCollection.mk c1 "alice" "work" None None false 103%Z 103%Z.
End Demo.

(** * Properties *)

(** ** Lists and statements *)

Lemma first_filter_None {R} (p : R -> bool) (l : list R) :
  first (filter p l) = None <-> forall x, In x l -> p x = false.
Proof.
  induction l as [|y l IH]; simpl.
  - split; [intros _ x [] | reflexivity].
  - destruct (p y) eqn:Ey; simpl.
    + split; [discriminate|].
      intros H. rewrite (H y) in Ey by now left. discriminate.
    + rewrite IH. split.
      * intros H x [<-|Hx]; auto.
      * intros H x Hx. apply H. now right.
Qed.

Lemma first_filter_Some {R} (p : R -> bool) (l : list R) (x : R) :
  first (filter p l) = Some x -> In x l /\ p x = true.
Proof.
  destruct (filter p l) as [|y l'] eqn:E; simpl; [discriminate|].
  intros [= ->].
  apply filter_In. rewrite E. now left.
Qed.

Lemma first_In {R} (l : list R) (x : R) : first l = Some x -> In x l.
Proof. destruct l; simpl; [discriminate|]. intros [= ->]. now left. Qed.

Lemma filter_none {R} (p : R -> bool) (l : list R) :
  length (filter p l) = 0 -> filter (fun r => negb (p r)) l = l.
Proof.
  induction l as [|y l IH]; simpl; [reflexivity|].
  destruct (p y); simpl; [discriminate|].
  intros H. now rewrite IH.
Qed.

Lemma filter_filter_negb {R} (p : R -> bool) (l : list R) :
  filter p (filter (fun r => negb (p r)) l) = [].
Proof.
  induction l as [|y l IH]; simpl; [reflexivity|].
  destruct (p y) eqn:E; simpl; [exact IH|].
  now rewrite E.
Qed.

Lemma NoDup_map_eq {R K} (f : R -> K) (l : list R) (x y : R) :
  NoDup (map f l) -> In x l -> In y l -> f x = f y -> x = y.
Proof.
  induction l as [|z l IH]; simpl; [intros _ []|].
  intros Hnd Hx Hy Hf. inversion Hnd as [|? ? Hnotin Hnd']; subst.
  destruct Hx as [<-|Hx], Hy as [<-|Hy]; auto.
  - exfalso. apply Hnotin. rewrite Hf. now apply in_map.
  - exfalso. apply Hnotin. rewrite <- Hf. now apply in_map.
Qed.

Lemma min1_isUUID (s : string) : isUUID s = true -> min1 s = true.
Proof.
  unfold isUUID, min1. intros H. apply Nat.eqb_eq in H. rewrite H. reflexivity.
Qed.

(** ** The monad *)

Lemma bind_Ok {A B} (m : Action A) (k : A -> Action B) db a db1 t1 :
  m db = mkOutcome (Ok a) db1 t1 ->
  bind m k db =
  mkOutcome (result (k a db1)) (final (k a db1)) (t1 ++ trace (k a db1)).
Proof. intros E. unfold bind. now rewrite E. Qed.

Lemma bind_Throw {A B} (m : Action A) (k : A -> Action B) db e db1 t1 :
  m db = mkOutcome (Throw e) db1 t1 ->
  bind m k db = mkOutcome (Throw e) db1 t1.
Proof. intros E. unfold bind. now rewrite E. Qed.

(** ** The guards *)

Lemma requireUser_cases context db :
  (exists u, locals context = Some (mkLocals (Some u)) /\
             requireUser context db = mkOutcome (Ok u) db []) \/
  ((locals context = None \/ locals context = Some (mkLocals None)) /\
   requireUser context db = mkOutcome (Throw UNAUTHORIZED) db []).
Proof.
  destruct context as [[[[[u]|]]|]]; simpl.
  - left. now exists (mkUser u).
  - right. split; auto.
  - right. split; auto.
Qed.

Lemma requireUser_signedIn u db :
  requireUser (signedIn u) db = mkOutcome (Ok (mkUser u)) db [].
Proof. reflexivity. Qed.

Lemma getOwnedItem_cases itemId userId db :
  (exists it,
     getOwnedItem itemId userId db = mkOutcome (Ok it) db [SELECT ITEMS] /\
     In it (ClipboardItems db) /\
     ClipboardItem.id it = itemId /\ ClipboardItem.userId it = userId) \/
  (getOwnedItem itemId userId db = mkOutcome (Throw NOT_FOUND) db [SELECT ITEMS] /\
   forall it, In it (ClipboardItems db) ->
     ClipboardItem.id it = itemId -> ClipboardItem.userId it <> userId).
Proof.
  unfold getOwnedItem, bind, select; simpl.
  destruct (first (filter _ (ClipboardItems db))) as [it|] eqn:E.
  - left. exists it. apply first_filter_Some in E as [Hin Hp].
    apply andb_true_iff in Hp as [H1 H2].
    apply String.eqb_eq in H1, H2. auto.
  - right. split; [reflexivity|].
    intros it Hin Hid Hu.
    rewrite first_filter_None in E. specialize (E it Hin).
    rewrite Hid, Hu, !String.eqb_refl in E. discriminate.
Qed.

Lemma getOwnedCollection_cases collectionId userId db :
  (exists c,
     getOwnedCollection collectionId userId db
       = mkOutcome (Ok c) db [SELECT COLLECTIONS] /\
     In c (ClipboardCollections db) /\
     ClipboardCollection.id c = collectionId /\
     ClipboardCollection.userId c = userId) \/
  (getOwnedCollection collectionId userId db
     = mkOutcome (Throw NOT_FOUND) db [SELECT COLLECTIONS] /\
   forall c, In c (ClipboardCollections db) ->
     ClipboardCollection.id c = collectionId ->
     ClipboardCollection.userId c <> userId).
Proof.
  unfold getOwnedCollection, bind, select; simpl.
  destruct (first (filter _ (ClipboardCollections db))) as [c|] eqn:E.
  - left. exists c. apply first_filter_Some in E as [Hin Hp].
    apply andb_true_iff in Hp as [H1 H2].
    apply String.eqb_eq in H1, H2. auto.
  - right. split; [reflexivity|].
    intros c Hin Hid Hu.
    rewrite first_filter_None in E. specialize (E c Hin).
    rewrite Hid, Hu, !String.eqb_refl in E. discriminate.
Qed.

Arguments requireUser : simpl never.
Arguments getOwnedCollection : simpl never.
Arguments getOwnedItem : simpl never.

(** Case analysis on the guards of an action, in the order the action runs
    them. *)
Ltac guards :=
  repeat match goal with
  | |- context [requireUser ?c ?db] =>
      let u := fresh "u" in
      let Hloc := fresh "Hloc" in
      let E := fresh "E" in
      destruct (requireUser_cases c db) as [(u & Hloc & E) | (Hloc & E)];
      rewrite E; clear E; cbn
  | |- context [getOwnedCollection ?i ?u ?db] =>
      let c := fresh "c" in
      let E := fresh "E" in
      let Hin := fresh "Hcin" in
      let Hid := fresh "Hcid" in
      let Hu := fresh "Hcu" in
      let Hno := fresh "Hcno" in
      destruct (getOwnedCollection_cases i u db)
        as [(c & E & Hin & Hid & Hu) | (E & Hno)];
      rewrite E; clear E; cbn
  | |- context [getOwnedItem ?i ?u ?db] =>
      let it := fresh "it" in
      let E := fresh "E" in
      let Hin := fresh "Hiin" in
      let Hid := fresh "Hiid" in
      let Hu := fresh "Hiu" in
      let Hno := fresh "Hino" in
      destruct (getOwnedItem_cases i u db)
        as [(it & E & Hin & Hid & Hu) | (E & Hno)];
      rewrite E; clear E; cbn
  end.

(** ** A failed request leaves the database as it was *)

Lemma insert_failure {R} (T : Table R) (v : R) db e :
  result (insert T v db) = Throw e -> final (insert T v db) = db.
Proof.
  unfold insert. destruct (existsb _ _); simpl; [reflexivity|discriminate].
Qed.

Lemma createClipboardItem_failure now u input context db e :
  result (createClipboardItem now u input context db) = Throw e ->
  final (createClipboardItem now u input context db) = db.
Proof.
  unfold createClipboardItem, defineAction.
  destruct (CreateClipboardItem.schema input) as [p|]; [|reflexivity].
  unfold bind. guards; try reflexivity.
  unfold insert; cbn. destruct (existsb _ _); cbn; [reflexivity|discriminate].
Qed.

Lemma updateClipboardItem_failure input context db e :
  result (updateClipboardItem input context db) = Throw e ->
  final (updateClipboardItem input context db) = db.
Proof.
  unfold updateClipboardItem, defineAction.
  destruct (UpdateClipboardItem.schema input) as [p|]; [|reflexivity].
  unfold bind. guards; try reflexivity. discriminate.
Qed.

Lemma listClipboardItems_failure input context db e :
  result (listClipboardItems input context db) = Throw e ->
  final (listClipboardItems input context db) = db.
Proof.
  unfold listClipboardItems, defineAction.
  destruct (ListClipboardItems.schema input) as [p|]; [|reflexivity].
  unfold bind. guards; reflexivity.
Qed.

Lemma createCollection_failure now u input context db e :
  result (createCollection now u input context db) = Throw e ->
  final (createCollection now u input context db) = db.
Proof.
  unfold createCollection, defineAction.
  destruct (CreateCollection.schema input) as [p|]; [|reflexivity].
  unfold bind. guards; try reflexivity.
  unfold insert; cbn. destruct (existsb _ _); cbn; [reflexivity|discriminate].
Qed.

Lemma updateCollection_failure now input context db e :
  result (updateCollection now input context db) = Throw e ->
  final (updateCollection now input context db) = db.
Proof.
  unfold updateCollection, defineAction.
  destruct (UpdateCollection.schema input) as [p|]; [|reflexivity].
  unfold bind. guards; try reflexivity. discriminate.
Qed.

Lemma listCollections_failure context db e :
  result (listCollections tt context db) = Throw e ->
  final (listCollections tt context db) = db.
Proof.
  unfold listCollections, defineAction, bind. guards; reflexivity.
Qed.

Lemma addItemToCollection_failure now u input context db e :
  result (addItemToCollection now u input context db) = Throw e ->
  final (addItemToCollection now u input context db) = db.
Proof.
  unfold addItemToCollection, defineAction.
  destruct (LinkInput.schema input) as [p|]; [|reflexivity].
  unfold bind. guards; try reflexivity.
  unfold insert; cbn. destruct (existsb _ _); cbn; [reflexivity|discriminate].
Qed.

Lemma removeItemFromCollection_failure input context db e :
  result (removeItemFromCollection input context db) = Throw e ->
  final (removeItemFromCollection input context db) = db.
Proof.
  unfold removeItemFromCollection, defineAction.
  destruct (LinkInput.schema input) as [p|]; [|reflexivity].
  unfold bind. guards; try reflexivity.
  destruct (Nat.eqb _ 0) eqn:E0; cbn; [|discriminate].
  intros _. apply Nat.eqb_eq in E0. rewrite (filter_none _ _ E0).
  now destruct db.
Qed.

Lemma listCollectionItems_failure input context db e :
  result (listCollectionItems input context db) = Throw e ->
  final (listCollectionItems input context db) = db.
Proof.
  unfold listCollectionItems, defineAction.
  destruct (ListCollectionItems.schema input) as [p|]; [|reflexivity].
  unfold bind. guards; try reflexivity.
  destruct (Nat.eqb _ 0); reflexivity.
Qed.

Lemma forget_Throw {A} (o : Outcome A) e :
  result (forget o) = Throw e -> result o = Throw e.
Proof. unfold forget; simpl. destruct (result o); congruence. Qed.

Lemma server_failure req context db e :
  result (server req context db) = Throw e ->
  final (server req context db) = db.
Proof.
  destruct req; simpl; intros H; apply forget_Throw in H.
  - eapply createClipboardItem_failure; eauto.
  - eapply updateClipboardItem_failure; eauto.
  - eapply listClipboardItems_failure; eauto.
  - eapply createCollection_failure; eauto.
  - eapply updateCollection_failure; eauto.
  - eapply listCollections_failure; eauto.
  - eapply addItemToCollection_failure; eauto.
  - eapply removeItemFromCollection_failure; eauto.
  - eapply listCollectionItems_failure; eauto.
Qed.

(** ** Every reachable database is consistent *)

Lemma NoDup_key_snoc {R} (f : R -> string) (l : list R) (v : R) :
  NoDup (map f l) ->
  existsb (fun r => f r =? f v) l = false ->
  NoDup (map f (l ++ [v])).
Proof.
  intros Hnd Hex. rewrite map_app; simpl.
  apply NoDup_app; [exact Hnd| |].
  - constructor; [intros []|constructor].
  - intros k Hk [<-|[]].
    apply in_map_iff in Hk as (r & Hr & Hin).
    assert (Ht : existsb (fun r => f r =? f v) l = true).
    { apply existsb_exists. exists r. split; [exact Hin|].
      rewrite Hr. apply String.eqb_refl. }
    congruence.
Qed.

Lemma map_key_update {R} (f : R -> string) (set : R -> R) (cond : R -> bool)
  (l : list R) :
  (forall r, f (set r) = f r) ->
  map f (map (fun r => if cond r then set r else r) l) = map f l.
Proof.
  intros Hset. rewrite map_map. apply map_ext.
  intros r. destruct (cond r); auto.
Qed.

Lemma NoDup_key_filter {R} (f : R -> string) (p : R -> bool) (l : list R) :
  NoDup (map f l) -> NoDup (map f (filter p l)).
Proof.
  induction l as [|x l IH]; simpl; [auto|].
  intros Hnd. inversion Hnd as [|? ? Hnotin Hnd']; subst.
  destruct (p x); simpl; [|auto].
  constructor; [|auto].
  intros Hin. apply Hnotin.
  apply in_map_iff in Hin as (r & Hr & Hin).
  apply filter_In in Hin as [Hin _].
  apply in_map_iff. eauto.
Qed.

Lemma consistent_empty : consistent emptyDb.
Proof.
  constructor; simpl; try constructor; intros ? [].
Qed.

Lemma consistent_insert_item db v :
  consistent db ->
  existsb (fun r => ClipboardItem.id r =? ClipboardItem.id v) (ClipboardItems db)
    = false ->
  isUUID (ClipboardItem.id v) = true ->
  consistent (put ItemsT (ClipboardItems db ++ [v]) db).
Proof.
  intros [Hi Hc Hl Hiu Hcu Hown] Hfresh Hu. constructor; simpl; auto.
  - now apply NoDup_key_snoc.
  - intros i Hin. apply in_app_or in Hin as [Hin|[<-|[]]]; auto.
  - intros l Hin. destruct (Hown l Hin) as (c & i & H1 & H2 & H3).
    exists c, i. split; [auto|]. split; [apply in_or_app; now left|auto].
Qed.

Lemma consistent_insert_collection db v :
  consistent db ->
  existsb (fun r => ClipboardCollection.id r =? ClipboardCollection.id v)
    (ClipboardCollections db) = false ->
  isUUID (ClipboardCollection.id v) = true ->
  consistent (put CollectionsT (ClipboardCollections db ++ [v]) db).
Proof.
  intros [Hi Hc Hl Hiu Hcu Hown] Hfresh Hu. constructor; simpl; auto.
  - now apply NoDup_key_snoc.
  - intros c Hin. apply in_app_or in Hin as [Hin|[<-|[]]]; auto.
  - intros l Hin. destruct (Hown l Hin) as (c & i & H1 & H2 & H3).
    exists c, i. split; [apply in_or_app; now left|auto].
Qed.

Lemma consistent_insert_link db v c i :
  consistent db ->
  existsb (fun r => ClipboardCollectionItem.id r =? ClipboardCollectionItem.id v)
    (ClipboardCollectionItems db) = false ->
  In c (ClipboardCollections db) -> In i (ClipboardItems db) ->
  ClipboardCollection.id c = ClipboardCollectionItem.collectionId v ->
  ClipboardItem.id i = ClipboardCollectionItem.itemId v ->
  ClipboardCollection.userId c = ClipboardItem.userId i ->
  consistent (put LinksT (ClipboardCollectionItems db ++ [v]) db).
Proof.
  intros [Hi Hc Hl Hiu Hcu Hown] Hfresh Hcin Hiin Hcid Hiid Hsame.
  constructor; simpl; auto.
  - now apply NoDup_key_snoc.
  - intros l Hin. apply in_app_or in Hin as [Hin|[<-|[]]]; auto.
    exists c, i. auto.
Qed.

Lemma consistent_update_items db (set : ClipboardItem.t -> ClipboardItem.t)
  (cond : ClipboardItem.t -> bool) :
  consistent db ->
  (forall r, ClipboardItem.id (set r) = ClipboardItem.id r) ->
  (forall r, ClipboardItem.userId (set r) = ClipboardItem.userId r) ->
  consistent
    (put ItemsT (map (fun r => if cond r then set r else r) (ClipboardItems db)) db).
Proof.
  intros [Hi Hc Hl Hiu Hcu Hown] Hid Hu. constructor; simpl; auto.
  - now rewrite map_key_update.
  - intros i Hin. apply in_map_iff in Hin as (r & <- & Hin).
    destruct (cond r); [rewrite Hid|]; auto.
  - intros l Hin. destruct (Hown l Hin) as (c & i & H1 & H2 & H3 & H4 & H5).
    exists c, (if cond i then set i else i).
    split; [auto|]. split.
    + apply in_map_iff. now exists i.
    + destruct (cond i); [rewrite Hid, Hu|]; auto.
Qed.

Lemma consistent_update_collections db
  (set : ClipboardCollection.t -> ClipboardCollection.t)
  (cond : ClipboardCollection.t -> bool) :
  consistent db ->
  (forall r, ClipboardCollection.id (set r) = ClipboardCollection.id r) ->
  (forall r, ClipboardCollection.userId (set r) = ClipboardCollection.userId r) ->
  consistent
    (put CollectionsT
       (map (fun r => if cond r then set r else r) (ClipboardCollections db)) db).
Proof.
  intros [Hi Hc Hl Hiu Hcu Hown] Hid Hu. constructor; simpl; auto.
  - now rewrite map_key_update.
  - intros c Hin. apply in_map_iff in Hin as (r & <- & Hin).
    destruct (cond r); [rewrite Hid|]; auto.
  - intros l Hin. destruct (Hown l Hin) as (c & i & H1 & H2 & H3 & H4 & H5).
    exists (if cond c then set c else c), i.
    split; [apply in_map_iff; now exists c|]. split; [auto|].
    destruct (cond c); [rewrite Hid, Hu|]; auto.
Qed.

Lemma consistent_delete_links db cond :
  consistent db ->
  consistent (put LinksT (filter cond (ClipboardCollectionItems db)) db).
Proof.
  intros [Hi Hc Hl Hiu Hcu Hown]. constructor; simpl; auto.
  - now apply NoDup_key_filter.
  - intros l Hin. apply filter_In in Hin as [Hin _]. auto.
Qed.

Lemma server_consistent req context db :
  consistent db -> uuidOk req = true ->
  consistent (final (server req context db)).
Proof.
  intros H Huuid. destruct req; simpl in *.
  - unfold createClipboardItem, defineAction.
    destruct (CreateClipboardItem.schema input) as [p|]; [|exact H].
    unfold bind. guards; [|exact H].
    unfold insert; cbn. destruct (existsb _ _) eqn:E; cbn; [exact H|].
    match goal with
    | |- consistent {| ClipboardItems := _ ++ [?v] |} =>
        apply (consistent_insert_item db v); auto
    end.
  - unfold updateClipboardItem, defineAction.
    destruct (UpdateClipboardItem.schema input) as [p|]; [|exact H].
    unfold bind. guards; try exact H.
    match goal with
    | |- consistent {| ClipboardItems := map (fun r => if ?c then _ else _) _ |} =>
        apply (consistent_update_items db (setClipboardItem p)
                 (fun r => ClipboardItem.id r =? UpdateClipboardItem.id p)); auto
    end.
  - unfold listClipboardItems, defineAction.
    destruct (ListClipboardItems.schema input) as [p|]; [|exact H].
    unfold bind. guards; exact H.
  - unfold createCollection, defineAction.
    destruct (CreateCollection.schema input) as [p|]; [|exact H].
    unfold bind. guards; [|exact H].
    unfold insert; cbn. destruct (existsb _ _) eqn:E; cbn; [exact H|].
    match goal with
    | |- consistent {| ClipboardCollections := _ ++ [?v] |} =>
        apply (consistent_insert_collection db v); auto
    end.
  - unfold updateCollection, defineAction.
    destruct (UpdateCollection.schema input) as [p|]; [|exact H].
    unfold bind. guards; try exact H.
    apply (consistent_update_collections db (setCollection now p)
             (fun r => ClipboardCollection.id r =? UpdateCollection.id p)); auto.
  - unfold listCollections, defineAction, bind. guards; exact H.
  - unfold addItemToCollection, defineAction.
    destruct (LinkInput.schema input) as [p|]; [|exact H].
    unfold bind. guards; try exact H.
    unfold insert; cbn. destruct (existsb _ _) eqn:E; cbn; [exact H|].
    match goal with
    | |- consistent {| ClipboardCollectionItems := _ ++ [?v] |} =>
        apply (consistent_insert_link db v c it); auto; congruence
    end.
  - unfold removeItemFromCollection, defineAction.
    destruct (LinkInput.schema input) as [p|]; [|exact H].
    unfold bind. guards; try exact H.
    destruct (Nat.eqb _ 0); cbn;
      apply (consistent_delete_links db
               (fun r => negb ((ClipboardCollectionItem.collectionId r
                                  =? LinkInput.collectionId p)
                               && (ClipboardCollectionItem.itemId r
                                     =? LinkInput.itemId p)))); exact H.
  - unfold listCollectionItems, defineAction.
    destruct (ListCollectionItems.schema input) as [p|]; [|exact H].
    unfold bind. guards; try exact H.
    destruct (Nat.eqb _ 0); exact H.
Qed.

Lemma reachable_consistent db : reachable db -> consistent db.
Proof.
  induction 1 as [|db req context Hr IH Huuid].
  - exact consistent_empty.
  - now apply server_consistent.
Qed.

Lemma reachable_serve reqs db :
  reachable db ->
  forallb (fun rc => uuidOk (fst rc)) reqs = true ->
  reachable (serve reqs db).
Proof.
  revert db. induction reqs as [|[req context] rest IH]; simpl; intros db Hr Hok.
  - exact Hr.
  - apply andb_true_iff in Hok as [H1 H2].
    apply IH; [|exact H2]. now constructor.
Qed.

(** ** Schemas *)

Lemma UpdateClipboardItem_schema_Some input p :
  UpdateClipboardItem.schema input = Some p ->
  p = input /\ min1 (UpdateClipboardItem.id input) = true /\
  UpdateClipboardItem.refine input = true.
Proof.
  unfold UpdateClipboardItem.schema.
  destruct (min1 _) eqn:E1; simpl; [|discriminate].
  destruct (optional zDate _); simpl; [|discriminate].
  destruct (UpdateClipboardItem.refine input) eqn:E2; [|discriminate].
  intros [= <-]. auto.
Qed.

Lemma UpdateCollection_schema_Some input p :
  UpdateCollection.schema input = Some p ->
  p = input /\ min1 (UpdateCollection.id input) = true /\
  UpdateCollection.refine input = true.
Proof.
  unfold UpdateCollection.schema.
  destruct (min1 _) eqn:E1; simpl; [|discriminate].
  destruct (match UpdateCollection.name input with
            | Some n => min1 n | None => true end); simpl; [|discriminate].
  destruct (UpdateCollection.refine input) eqn:E2; [|discriminate].
  intros [= <-]. auto.
Qed.

Lemma LinkInput_schema_Some input p :
  LinkInput.schema input = Some p ->
  p = input /\ min1 (LinkInput.collectionId input) = true /\
  min1 (LinkInput.itemId input) = true.
Proof.
  unfold LinkInput.schema.
  destruct (min1 (LinkInput.collectionId input)) eqn:E1; simpl; [|discriminate].
  destruct (min1 (LinkInput.itemId input)) eqn:E2; [|discriminate].
  intros [= <-]. auto.
Qed.

Lemma ListCollectionItems_schema_Some input p :
  ListCollectionItems.schema input = Some p ->
  p = input /\ min1 (ListCollectionItems.collectionId input) = true.
Proof.
  unfold ListCollectionItems.schema.
  destruct (min1 _) eqn:E1; [|discriminate].
  intros [= <-]. auto.
Qed.

(** ** Zero-field updates *)

(** C8: [updateClipboardItem] and [updateCollection] given an id and none of
    the optional fields fail with the input error, whoever calls and whatever
    the database holds, with the database untouched and no storage statement
    issued. *)
Theorem zero_field_update_rejected :
  forall (entityId : string) (now : Date) (context : ActionAPIContext) (db : Db),
    updateClipboardItem
      (UpdateClipboardItem.mk entityId None None None None None None None None)
      context db
    = mkOutcome (Throw BAD_REQUEST) db []
    /\
    updateCollection now (UpdateCollection.mk entityId None None None None)
      context db
    = mkOutcome (Throw BAD_REQUEST) db [].
Proof.
  intros entityId now context db. split.
  - unfold updateClipboardItem, defineAction, UpdateClipboardItem.schema.
    simpl. rewrite andb_false_r. reflexivity.
  - unfold updateCollection, defineAction, UpdateCollection.schema.
    simpl. rewrite andb_false_r. reflexivity.
Qed.

Lemma Demo_reachable : reachable Demo.db.
Proof. apply reachable_serve; [constructor|reflexivity]. Qed.

(** ** Partial update of an item *)

Lemma setClipboardItem_onlySuppliedChanged input r :
  onlySuppliedChanged input r (setClipboardItem input r).
Proof.
  constructor; simpl; try reflexivity;
    unfold written, writtenNullable, orElse, setIfDefined;
    match goal with |- match ?x with _ => _ end => destruct x; reflexivity end.
Qed.

Lemma Forall2_update {R} (P : R -> R -> Prop) (set : R -> R) (cond : R -> bool)
  (l : list R) :
  (forall r, P r (set r)) ->
  Forall2 (fun before after => if cond before then P before after else after = before)
          l (map (fun r => if cond r then set r else r) l).
Proof.
  intros HP. induction l as [|x l IH]; simpl; constructor; auto.
  destruct (cond x); auto.
Qed.

(** C4: a successful [updateClipboardItem] changes, in the rows with the given
    id, only the columns whose keys the input supplies: an absent key leaves
    its column as it was (never null), and [id], [userId] and [createdAt] are
    never written.  The row returned is such a row; every other row of the
    table and the two other tables are as before. *)
Theorem updateClipboardItem_only_supplied_fields :
  forall input context db r,
    result (updateClipboardItem input context db) = Ok r ->
    let db' := final (updateClipboardItem input context db) in
    (exists before after,
        In before (ClipboardItems db) /\
        ClipboardItem.id before = UpdateClipboardItem.id input /\
        data r = Some after /\
        In after (ClipboardItems db') /\
        onlySuppliedChanged input before after) /\
    Forall2 (fun before after =>
               if ClipboardItem.id before =? UpdateClipboardItem.id input
               then onlySuppliedChanged input before after
               else after = before)
            (ClipboardItems db) (ClipboardItems db') /\
    ClipboardCollections db' = ClipboardCollections db /\
    ClipboardCollectionItems db' = ClipboardCollectionItems db.
Proof.
  intros input context db r.
  unfold updateClipboardItem, defineAction.
  destruct (UpdateClipboardItem.schema input) as [p|] eqn:Es; [|discriminate].
  apply UpdateClipboardItem_schema_Some in Es as (-> & _ & _).
  unfold bind. guards; try discriminate.
  intros [= <-]. cbn.
  assert (Hf : In it (filter (fun i => ClipboardItem.id i =? UpdateClipboardItem.id input)
                        (ClipboardItems db))).
  { apply filter_In. split; [exact Hiin|]. rewrite Hiid. apply String.eqb_refl. }
  destruct (filter _ (ClipboardItems db)) as [|before rest] eqn:Ef; [destruct Hf|].
  pose proof (proj1 (filter_In
                      (fun i => ClipboardItem.id i =? UpdateClipboardItem.id input)
                      before (ClipboardItems db))) as Hb.
  rewrite Ef in Hb. destruct (Hb (or_introl eq_refl)) as [Hbin Hbid].
  cbn beta in Hbid.
  split; [|split; [|split; reflexivity]].
  - exists before, (setClipboardItem input before).
    split; [exact Hbin|]. split; [now apply String.eqb_eq|].
    split; [reflexivity|]. split.
    + apply in_map_iff. exists before. now rewrite Hbid.
    + apply setClipboardItem_onlySuppliedChanged.
  - apply Forall2_update. apply setClipboardItem_onlySuppliedChanged.
Qed.

Lemma updateClipboardItem_only_supplied_fields_witness :
  let input :=
    UpdateClipboardItem.mk Demo.i3 None None None None None (Some true) None None in
  exists r,
    result (updateClipboardItem input Demo.alice Demo.db) = Ok r /\
    exists before after,
      In before (ClipboardItems Demo.db) /\
      ClipboardItem.id before = Demo.i3 /\
      data r = Some after /\
      In after (ClipboardItems (final (updateClipboardItem input Demo.alice Demo.db))) /\
      onlySuppliedChanged input before after.
Proof.
  intros input. eexists.
  match goal with
  | |- ?A /\ _ => assert (H : A) by (vm_compute; reflexivity)
  end.
  split; [exact H|].
  exact (proj1 (updateClipboardItem_only_supplied_fields _ _ _ _ H)).
Defined.

(** ** Listing the items of the caller *)

Lemma filter_andb {R} (f g : R -> bool) (l : list R) :
  filter (fun x => f x && g x) l = filter g (filter f l).
Proof.
  induction l as [|x l IH]; simpl; [reflexivity|].
  destruct (f x); simpl; [|exact IH].
  destruct (g x); now rewrite IH.
Qed.

Lemma Permutation_filter_one {R} (p : R -> bool) (l l' : list R) :
  Permutation l l' -> Permutation (filter p l) (filter p l').
Proof.
  induction 1 as [|x l l' _ IH|x y l|l l' l'' _ IH1 _ IH2]; simpl.
  - constructor.
  - destruct (p x); [now constructor|exact IH].
  - destruct (p x), (p y); try reflexivity. constructor.
  - now transitivity (filter p l').
Qed.

(** The statement [listClipboardItems] issues, with its list of filters
    folded into one condition. *)
Lemma listClipboardItems_run input u db :
  let found :=
    filter (fun i =>
              (ClipboardItem.userId i =? u)
              && ((orElse (ListClipboardItems.includeArchived input) false
                   || negb (ClipboardItem.isArchived i))
                  && (negb (orElse (ListClipboardItems.pinnedOnly input) false)
                      || ClipboardItem.isPinned i)))
           (ClipboardItems db) in
  listClipboardItems input (signedIn u) db
  = mkOutcome (Ok (mkResponse true (mkListing found (length found))))
              db [SELECT ITEMS].
Proof.
  intros found. subst found.
  unfold listClipboardItems, defineAction, ListClipboardItems.schema, bind, select.
  rewrite requireUser_signedIn. cbn.
  destruct (orElse (ListClipboardItems.includeArchived input) false),
    (orElse (ListClipboardItems.pinnedOnly input) false); cbn;
    (reflexivity ||
     (match goal with
      | |- mkOutcome (Ok (mkResponse true (mkListing (filter ?f _) _))) _ _
           = mkOutcome (Ok (mkResponse true (mkListing (filter ?g _) _))) _ _ =>
          rewrite (filter_ext f g); [reflexivity|]
      end;
      intros i;
      destruct (ClipboardItem.userId i =? u), (ClipboardItem.isArchived i),
        (ClipboardItem.isPinned i); reflexivity)).
Qed.

(** C7: [listClipboardItems] of a signed-in caller reads the items table once
    and returns the rows that are the caller's, are not archived unless
    [includeArchived] is true, and are pinned when [pinnedOnly] is true, all
    three at once; [total] is the number of rows returned.  When the caller's
    items are a pinned archived one, a pinned active one and an unpinned active
    one, in any order and among any items of other users, asking for
    [pinnedOnly] alone returns exactly the pinned active one, with total 1. *)
Theorem listClipboardItems_filters_conjunctively :
  forall u db,
    (forall input, exists found,
        listClipboardItems input (signedIn u) db
        = mkOutcome (Ok (mkResponse true (mkListing found (length found))))
                    db [SELECT ITEMS] /\
        forall i, In i found <->
          In i (ClipboardItems db) /\
          ClipboardItem.userId i = u /\
          (orElse (ListClipboardItems.includeArchived input) false = false ->
           ClipboardItem.isArchived i = false) /\
          (orElse (ListClipboardItems.pinnedOnly input) false = true ->
           ClipboardItem.isPinned i = true)) /\
    (forall pinnedArchived pinnedActive unpinnedActive,
        Permutation
          (filter (fun i => ClipboardItem.userId i =? u) (ClipboardItems db))
          [pinnedArchived; pinnedActive; unpinnedActive] ->
        ClipboardItem.isPinned pinnedArchived = true ->
        ClipboardItem.isArchived pinnedArchived = true ->
        ClipboardItem.isPinned pinnedActive = true ->
        ClipboardItem.isArchived pinnedActive = false ->
        ClipboardItem.isPinned unpinnedActive = false ->
        ClipboardItem.isArchived unpinnedActive = false ->
        result (listClipboardItems (ListClipboardItems.mk None (Some true))
                  (signedIn u) db)
        = Ok (mkResponse true (mkListing [pinnedActive] 1))).
Proof.
  intros u db. split.
  - intros input. eexists. split; [apply listClipboardItems_run|].
    intros i. rewrite filter_In.
    destruct (orElse (ListClipboardItems.includeArchived input) false),
      (orElse (ListClipboardItems.pinnedOnly input) false); cbn;
      rewrite ?andb_true_iff, ?negb_true_iff, String.eqb_eq;
      intuition congruence.
  - intros a b c Hperm Hpa Haa Hpb Hab Hpc Hac.
    rewrite listClipboardItems_run. cbn.
    rewrite filter_andb.
    set (flags := fun i : ClipboardItem.t =>
                    negb (ClipboardItem.isArchived i) && ClipboardItem.isPinned i).
    assert (Hone : filter flags
                     (filter (fun i => ClipboardItem.userId i =? u)
                             (ClipboardItems db)) = [b]).
    { apply Permutation_length_1_inv. symmetry.
      rewrite (Permutation_filter_one flags _ _ Hperm). simpl.
      unfold flags. rewrite Haa, Hab, Hpb, Hac, Hpc. reflexivity. }
    change (fun i : ClipboardItem.t =>
              (false || negb (ClipboardItem.isArchived i))
              && (negb true || ClipboardItem.isPinned i)) with flags.
    rewrite Hone. reflexivity.
Qed.

Lemma listClipboardItems_filters_conjunctively_witness :
  result (listClipboardItems (ListClipboardItems.mk None (Some true))
            (signedIn "alice") Demo.db)
  = Ok (mkResponse true (mkListing [Demo.second_row] 1)).
Proof.
  apply (proj2 (listClipboardItems_filters_conjunctively "alice" Demo.db)
           Demo.first_row Demo.second_row Demo.third_row);
    reflexivity.
Defined.

(** ** Listing the items of a collection *)

Lemma requireUser_locals context u db :
  locals context = Some (mkLocals (Some u)) ->
  requireUser context db = mkOutcome (Ok u) db [].
Proof. unfold requireUser. now intros ->. Qed.

Lemma filter_inArray_nil (l : list ClipboardItem.t) :
  filter (fun i => inArray (ClipboardItem.id i) []) l = [].
Proof. induction l; simpl; auto. Qed.

(** What [listCollectionItems] returned when it returned: the caller is signed
    in and owns the collection, and the rows are the items whose id is among
    the item ids of the links of the collection. *)
Lemma listCollectionItems_Ok input context db r :
  result (listCollectionItems input context db) = Ok r ->
  let found :=
    filter (fun i => inArray (ClipboardItem.id i)
                       (map ClipboardCollectionItem.itemId
                          (linksOf (ListCollectionItems.collectionId input) db)))
           (ClipboardItems db) in
  r = mkResponse true (mkListing found (length found)) /\
  exists u c,
    locals context = Some (mkLocals (Some u)) /\
    In c (ClipboardCollections db) /\
    ClipboardCollection.id c = ListCollectionItems.collectionId input /\
    ClipboardCollection.userId c = uid u.
Proof.
  unfold listCollectionItems, defineAction.
  destruct (ListCollectionItems.schema input) as [p|] eqn:Es; [|discriminate].
  apply ListCollectionItems_schema_Some in Es as (-> & _).
  unfold bind. guards; try discriminate.
  unfold linksOf.
  destruct (filter _ (ClipboardCollectionItems db)) as [|l ls]; cbn.
  - intros [= <-]. rewrite filter_inArray_nil. split; [reflexivity|].
    exists u, c. auto.
  - intros [= <-]. split; [reflexivity|]. exists u, c. auto.
Qed.

(** [listCollectionItems] by the owner of the collection returns. *)
Lemma listCollectionItems_owner input context db u c :
  min1 (ListCollectionItems.collectionId input) = true ->
  locals context = Some (mkLocals (Some u)) ->
  In c (ClipboardCollections db) ->
  ClipboardCollection.id c = ListCollectionItems.collectionId input ->
  ClipboardCollection.userId c = uid u ->
  exists r, result (listCollectionItems input context db) = Ok r.
Proof.
  intros Hmin Hloc Hin Hid Hu.
  unfold listCollectionItems, defineAction, ListCollectionItems.schema.
  rewrite Hmin. unfold bind.
  rewrite (requireUser_locals _ _ _ Hloc). cbn.
  guards.
  - destruct (Nat.eqb _ 0); cbn; eauto.
  - exfalso. exact (Hcno c Hin Hid Hu).
Qed.

(** ** Links *)

(** What [addItemToCollection] did when it returned. *)
Lemma addItemToCollection_Ok now uuid input context db r :
  result (addItemToCollection now uuid input context db) = Ok r ->
  let link :=
    ClipboardCollectionItem.mk uuid (LinkInput.collectionId input)
      (LinkInput.itemId input) now in
  exists u c i,
    locals context = Some (mkLocals (Some u)) /\
    min1 (LinkInput.collectionId input) = true /\
    min1 (LinkInput.itemId input) = true /\
    In c (ClipboardCollections db) /\
    ClipboardCollection.id c = LinkInput.collectionId input /\
    ClipboardCollection.userId c = uid u /\
    In i (ClipboardItems db) /\
    ClipboardItem.id i = LinkInput.itemId input /\
    ClipboardItem.userId i = uid u /\
    r = mkResponse true (Some link) /\
    final (addItemToCollection now uuid input context db)
    = put LinksT (ClipboardCollectionItems db ++ [link]) db.
Proof.
  unfold addItemToCollection, defineAction.
  destruct (LinkInput.schema input) as [p|] eqn:Es; [|discriminate].
  apply LinkInput_schema_Some in Es as (-> & Hm1 & Hm2).
  unfold bind. guards; try discriminate.
  unfold insert; cbn. destruct (existsb _ _); cbn; [discriminate|].
  intros [= <-]. exists u, c, it. repeat (split; [assumption || reflexivity|]).
  reflexivity.
Qed.

(** What [removeItemFromCollection] does for a caller who owns both the
    collection and the item. *)
Lemma removeItemFromCollection_owner input context db u c i :
  min1 (LinkInput.collectionId input) = true ->
  min1 (LinkInput.itemId input) = true ->
  locals context = Some (mkLocals (Some u)) ->
  In c (ClipboardCollections db) ->
  ClipboardCollection.id c = LinkInput.collectionId input ->
  ClipboardCollection.userId c = uid u ->
  In i (ClipboardItems db) ->
  ClipboardItem.id i = LinkInput.itemId input ->
  ClipboardItem.userId i = uid u ->
  let o := removeItemFromCollection input context db in
  let joins := fun l =>
    (ClipboardCollectionItem.collectionId l =? LinkInput.collectionId input)
    && (ClipboardCollectionItem.itemId l =? LinkInput.itemId input) in
  final o
  = put LinksT (filter (fun l => negb (joins l)) (ClipboardCollectionItems db)) db /\
  result o
  = match linksBetween (LinkInput.collectionId input) (LinkInput.itemId input) db with
    | [] => Throw NOT_FOUND
    | _ :: _ => Ok (mkResponse true tt)
    end.
Proof.
  intros Hm1 Hm2 Hloc Hcin Hcid Hcu Hiin Hiid Hiu.
  unfold removeItemFromCollection, defineAction, LinkInput.schema.
  rewrite Hm1, Hm2. cbn. unfold bind.
  rewrite (requireUser_locals _ _ _ Hloc). cbn.
  guards.
  - unfold linksBetween.
    destruct (filter _ (ClipboardCollectionItems db)); cbn; auto.
  - exfalso. exact (Hino i Hiin Hiid Hiu).
  - exfalso. exact (Hcno c Hcin Hcid Hcu).
Qed.

(** What [removeItemFromCollection] did when it returned. *)
Lemma removeItemFromCollection_Ok input context db r :
  result (removeItemFromCollection input context db) = Ok r ->
  exists u c i,
    locals context = Some (mkLocals (Some u)) /\
    min1 (LinkInput.collectionId input) = true /\
    min1 (LinkInput.itemId input) = true /\
    In c (ClipboardCollections db) /\
    ClipboardCollection.id c = LinkInput.collectionId input /\
    ClipboardCollection.userId c = uid u /\
    In i (ClipboardItems db) /\
    ClipboardItem.id i = LinkInput.itemId input /\
    ClipboardItem.userId i = uid u.
Proof.
  unfold removeItemFromCollection, defineAction.
  destruct (LinkInput.schema input) as [p|] eqn:Es; [|discriminate].
  apply LinkInput_schema_Some in Es as (-> & Hm1 & Hm2).
  unfold bind. guards; try discriminate.
  intros _. exists u, c, it. repeat (split; [assumption|]). assumption.
Qed.

Lemma inArray_In (x : string) (l : list string) :
  inArray x l = true <-> In x l.
Proof.
  unfold inArray. rewrite existsb_exists. split.
  - intros (y & Hy & E). apply String.eqb_eq in E. now subst.
  - intros H. exists x. split; [exact H|apply String.eqb_refl].
Qed.

(** C5: when [addItemToCollection] has returned, [listCollectionItems] of the
    collection by the same caller, on the database the addition left, returns
    a listing that holds the item; and when [removeItemFromCollection] has
    returned, on whatever database, the listing of the collection on the
    database it left holds no item of that id.  A removal that follows the
    addition does return. *)
Theorem link_lifecycle_round_trip :
  forall input context db,
    let list_collection :=
      listCollectionItems
        (ListCollectionItems.mk (LinkInput.collectionId input)) context in
    (forall now uuid r,
        result (addItemToCollection now uuid input context db) = Ok r ->
        let db1 := final (addItemToCollection now uuid input context db) in
        (exists found,
            result (list_collection db1)
            = Ok (mkResponse true (mkListing found (length found))) /\
            exists i, In i found /\ In i (ClipboardItems db) /\
                      ClipboardItem.id i = LinkInput.itemId input) /\
        result (removeItemFromCollection input context db1)
        = Ok (mkResponse true tt)) /\
    (forall r,
        result (removeItemFromCollection input context db) = Ok r ->
        let db2 := final (removeItemFromCollection input context db) in
        exists found,
          result (list_collection db2)
          = Ok (mkResponse true (mkListing found (length found))) /\
          forall i, In i found ->
            ClipboardItem.id i <> LinkInput.itemId input).
Proof.
  intros input context db list_collection. split.
  - intros now uuid r Hadd db1.
    destruct (addItemToCollection_Ok _ _ _ _ _ _ Hadd)
      as (u & c & i & Hloc & Hm1 & Hm2 & Hcin & Hcid & Hcu & Hiin & Hiid & Hiu
          & _ & Hfinal).
    subst db1. rewrite Hfinal. cbn. split.
    + destruct (listCollectionItems_owner
                  (ListCollectionItems.mk (LinkInput.collectionId input))
                  context
                  (mkDb (ClipboardItems db) (ClipboardCollections db)
                     (ClipboardCollectionItems db
                      ++ [ClipboardCollectionItem.mk uuid
                            (LinkInput.collectionId input)
                            (LinkInput.itemId input) now]))
                  u c Hm1 Hloc Hcin Hcid Hcu) as [r' Hr'].
      pose proof (listCollectionItems_Ok _ _ _ _ Hr') as [-> _].
      eexists. split; [exact Hr'|].
      exists i. split; [|auto].
      apply filter_In. split; [exact Hiin|].
      apply inArray_In. apply in_map_iff.
      eexists. split; [|apply filter_In; split;
                         [apply in_or_app; right; left; reflexivity|]].
      * cbn. now rewrite Hiid.
      * cbn. apply String.eqb_refl.
    + destruct (removeItemFromCollection_owner input context
                  (mkDb (ClipboardItems db) (ClipboardCollections db)
                     (ClipboardCollectionItems db
                      ++ [ClipboardCollectionItem.mk uuid
                            (LinkInput.collectionId input)
                            (LinkInput.itemId input) now]))
                  u c i Hm1 Hm2 Hloc Hcin Hcid Hcu Hiin Hiid Hiu) as [_ Hres].
      rewrite Hres. unfold linksBetween; cbn.
      rewrite filter_app; cbn. rewrite !String.eqb_refl; cbn.
      destruct (filter _ (ClipboardCollectionItems db)); reflexivity.
  - intros r Hrem db2.
    destruct (removeItemFromCollection_Ok _ _ _ _ Hrem)
      as (u & c & i & Hloc & Hm1 & Hm2 & Hcin & Hcid & Hcu & Hiin & Hiid & Hiu).
    destruct (removeItemFromCollection_owner input context db u c i
                Hm1 Hm2 Hloc Hcin Hcid Hcu Hiin Hiid Hiu) as [Hfinal _].
    subst db2. rewrite Hfinal. cbn.
    destruct (listCollectionItems_owner
                (ListCollectionItems.mk (LinkInput.collectionId input))
                context
                (mkDb (ClipboardItems db) (ClipboardCollections db)
                   (filter
                      (fun l =>
                         negb ((ClipboardCollectionItem.collectionId l
                                  =? LinkInput.collectionId input)
                               && (ClipboardCollectionItem.itemId l
                                     =? LinkInput.itemId input)))
                      (ClipboardCollectionItems db)))
                u c Hm1 Hloc Hcin Hcid Hcu) as [r' Hr'].
    pose proof (listCollectionItems_Ok _ _ _ _ Hr') as [-> _].
    eexists. split; [exact Hr'|].
    intros x Hx Heq.
    apply filter_In in Hx as [_ Hx]. apply inArray_In in Hx.
    apply in_map_iff in Hx as (l & Hl & Hlin).
    apply filter_In in Hlin as [Hlin Hlc]. cbn in Hlin, Hlc.
    apply filter_In in Hlin as [_ Hneg].
    cbn in Hlc. rewrite Hlc, Hl, Heq, String.eqb_refl in Hneg. discriminate.
Qed.

Lemma link_lifecycle_round_trip_witness :
  let input := LinkInput.mk Demo.c1 Demo.i3 in
  let uuid := "00000000-0000-4000-8000-0000000000d4" in
  let db1 := final (addItemToCollection 200%Z uuid input Demo.alice Demo.db) in
  let db2 := final (removeItemFromCollection input Demo.alice db1) in
  exists r,
    result (addItemToCollection 200%Z uuid input Demo.alice Demo.db) = Ok r /\
    result (removeItemFromCollection input Demo.alice db1)
    = Ok (mkResponse true tt) /\
    exists found,
      result (listCollectionItems (ListCollectionItems.mk Demo.c1) Demo.alice db2)
      = Ok (mkResponse true (mkListing found (length found))) /\
      forall i, In i found -> ClipboardItem.id i <> Demo.i3.
Proof.
  intros input uuid db1 db2. eexists.
  match goal with
  | |- ?A /\ _ => assert (H : A) by (vm_compute; reflexivity)
  end.
  pose proof (proj2 (proj1 (link_lifecycle_round_trip input Demo.alice Demo.db)
                       200%Z uuid _ H)) as Hrem.
  split; [exact H|]. split; [exact Hrem|].
  exact (proj2 (link_lifecycle_round_trip input Demo.alice db1) _ Hrem).
Defined.

(** C6: for a caller who owns the collection and the item,
    [removeItemFromCollection] leaves no link row joining the two, however many
    there were, and leaves every other link row and the other tables as they
    were; it throws NOT_FOUND exactly when no link row joined them, and
    returns success otherwise. *)
Theorem removeItemFromCollection_removes_every_link :
  forall db u c i,
    reachable db ->
    In c (ClipboardCollections db) -> ClipboardCollection.userId c = u ->
    In i (ClipboardItems db) -> ClipboardItem.userId i = u ->
    let collectionId := ClipboardCollection.id c in
    let itemId := ClipboardItem.id i in
    let o :=
      removeItemFromCollection (LinkInput.mk collectionId itemId) (signedIn u) db in
    linksBetween collectionId itemId (final o) = [] /\
    (forall l, In l (ClipboardCollectionItems (final o)) <->
               In l (ClipboardCollectionItems db) /\
               ~ (ClipboardCollectionItem.collectionId l = collectionId /\
                  ClipboardCollectionItem.itemId l = itemId)) /\
    ClipboardItems (final o) = ClipboardItems db /\
    ClipboardCollections (final o) = ClipboardCollections db /\
    (result o = Throw NOT_FOUND <-> length (linksBetween collectionId itemId db) = 0) /\
    (result o = Ok (mkResponse true tt)
     <-> length (linksBetween collectionId itemId db) <> 0).
Proof.
  intros db u c i Hreach Hcin Hcu Hiin Hiu collectionId itemId o.
  pose proof (reachable_consistent db Hreach) as Hcons.
  destruct (removeItemFromCollection_owner
              (LinkInput.mk collectionId itemId) (signedIn u) db (mkUser u) c i)
    as [Hfinal Hres]; auto.
  { apply min1_isUUID. now apply (collections_uuid db Hcons). }
  { apply min1_isUUID. now apply (items_uuid db Hcons). }
  fold o in Hfinal, Hres. cbn in Hfinal, Hres.
  rewrite Hfinal, Hres. cbn.
  split; [|split; [|split; [|split; [|split]]]]; try reflexivity.
  - unfold linksBetween. cbn. apply filter_filter_negb.
  - intros l. rewrite filter_In, negb_true_iff, andb_false_iff.
    rewrite <- !not_true_iff_false, !String.eqb_eq.
    split.
    + intros [Hin [H|H]]; split; auto; intros [H1 H2]; auto.
    + intros [Hin H]. split; [exact Hin|].
      destruct (string_dec (ClipboardCollectionItem.collectionId l) collectionId);
        [right|left]; auto.
  - destruct (linksBetween collectionId itemId db); cbn; split;
      congruence || discriminate || auto.
  - destruct (linksBetween collectionId itemId db); cbn; split;
      congruence || discriminate || auto.
Qed.

Lemma removeItemFromCollection_removes_every_link_witness :
  let o :=
    removeItemFromCollection (LinkInput.mk Demo.c1 Demo.i1) Demo.alice Demo.db in
  length (linksBetween Demo.c1 Demo.i1 Demo.db) = 2 /\
  result o = Ok (mkResponse true tt) /\
  linksBetween Demo.c1 Demo.i1 (final o) = [].
Proof.
  pose proof (removeItemFromCollection_removes_every_link
                Demo.db "alice" Demo.work_row Demo.first_row Demo_reachable)
    as H.
  intros o. split; [vm_compute; reflexivity|].
  destruct H as (H1 & _ & _ & _ & _ & H6).
  - vm_compute. auto.
  - reflexivity.
  - vm_compute. auto.
  - reflexivity.
  - split; [|exact H1].
    apply H6. vm_compute. discriminate.
Defined.

(** ** Duplicate links *)

Lemma nodup_length_le (l : list string) :
  length (nodup string_dec l) <= length l.
Proof.
  induction l as [|x l IH]; simpl; [lia|].
  destruct (in_dec string_dec x l); simpl; lia.
Qed.

Lemma nodup_length_lt (l : list string) :
  ~ NoDup l -> length (nodup string_dec l) < length l.
Proof.
  induction l as [|x l IH]; simpl; intros Hdup.
  - exfalso. apply Hdup. constructor.
  - destruct (in_dec string_dec x l) as [Hin|Hnotin]; simpl.
    + pose proof (nodup_length_le l). lia.
    + assert (Hl : ~ NoDup l).
      { intros Hnd. apply Hdup. now constructor. }
      specialize (IH Hl). lia.
Qed.

(** C10: on a reachable database, a listing [listCollectionItems] returned
    holds no item twice, holds exactly the items some link of the collection
    names, and its [total] is the number of distinct item ids among the links
    of the collection: never more than the number of link rows, and strictly
    less as soon as two link rows of the collection name the same item. *)
Theorem listCollectionItems_counts_distinct_items :
  forall db input context found n,
    reachable db ->
    result (listCollectionItems input context db)
    = Ok (mkResponse true (mkListing found n)) ->
    let links := linksOf (ListCollectionItems.collectionId input) db in
    let linked := map ClipboardCollectionItem.itemId links in
    NoDup (map ClipboardItem.id found) /\
    (forall i, In i found <->
               In i (ClipboardItems db) /\ In (ClipboardItem.id i) linked) /\
    n = length found /\
    n = length (nodup string_dec linked) /\
    n <= length links /\
    (~ NoDup linked -> n < length links).
Proof.
  intros db input context found n Hreach Hres links linked.
  pose proof (reachable_consistent db Hreach) as Hcons.
  pose proof (listCollectionItems_Ok _ _ _ _ Hres) as [Hr _].
  fold links linked in Hr. injection Hr as Hfound Hn.
  assert (Hnd : NoDup (map ClipboardItem.id found)).
  { rewrite Hfound. apply NoDup_key_filter. apply (items_pk db Hcons). }
  assert (Hmem : forall i, In i found <->
                   In i (ClipboardItems db) /\ In (ClipboardItem.id i) linked).
  { intros i. rewrite Hfound, filter_In, inArray_In. reflexivity. }
  assert (Hcount : length found = length (nodup string_dec linked)).
  { rewrite <- (length_map ClipboardItem.id found).
    apply Permutation_length. apply NoDup_Permutation.
    - exact Hnd.
    - apply NoDup_nodup.
    - intros x. rewrite nodup_In. split.
      + intros Hx. apply in_map_iff in Hx as (i & <- & Hi).
        now apply Hmem in Hi.
      + intros Hx. pose proof Hx as Hx'.
        apply in_map_iff in Hx' as (l & Hl & Hlin).
        apply filter_In in Hlin as [Hlin _].
        destruct (links_owned db Hcons l Hlin) as (c & i & _ & Hi & _ & Hid & _).
        apply in_map_iff. exists i. split; [congruence|].
        apply Hmem. split; [exact Hi|]. now rewrite Hid, Hl. }
  assert (Hlen : length linked = length links) by apply length_map.
  split; [exact Hnd|]. split; [exact Hmem|].
  split; [now rewrite Hn, Hfound|].
  split; [rewrite Hn, <- Hcount, Hfound; reflexivity|].
  assert (Hn' : n = length (nodup string_dec linked)).
  { rewrite Hn, <- Hcount, Hfound. reflexivity. }
  split.
  - rewrite Hn', <- Hlen. apply nodup_length_le.
  - intros Hdup. rewrite Hn', <- Hlen. now apply nodup_length_lt.
Qed.

Lemma listCollectionItems_counts_distinct_items_witness :
  exists found,
    result (listCollectionItems (ListCollectionItems.mk Demo.c1) Demo.alice Demo.db)
    = Ok (mkResponse true (mkListing found 2)) /\
    length (linksOf Demo.c1 Demo.db) = 3 /\
    NoDup (map ClipboardItem.id found) /\
    2 = length (nodup string_dec
                  (map ClipboardCollectionItem.itemId (linksOf Demo.c1 Demo.db))).
Proof.
  eexists.
  match goal with
  | |- ?A /\ _ => assert (H : A) by (vm_compute; reflexivity)
  end.
  split; [exact H|]. split; [vm_compute; reflexivity|].
  pose proof (listCollectionItems_counts_distinct_items
                Demo.db (ListCollectionItems.mk Demo.c1) Demo.alice _ 2
                Demo_reachable H) as (H1 & _ & _ & H4 & _).
  split; [exact H1|exact H4].
Defined.

(** ** Updating a collection *)

Lemma filter_update {R} (set : R -> R) (cond : R -> bool) (l : list R) :
  (forall r, cond (set r) = cond r) ->
  filter cond (map (fun r => if cond r then set r else r) l)
  = map set (filter cond l).
Proof.
  intros Hc. induction l as [|x l IH]; simpl; [reflexivity|].
  destruct (cond x) eqn:E; simpl.
  - rewrite Hc, E. simpl. now rewrite IH.
  - rewrite E. exact IH.
Qed.

(** What [updateCollection] did when it returned: the row returned is the
    first row with the given id, with the supplied columns and [updatedAt]
    written. *)
Lemma updateCollection_Ok now input context db r :
  result (updateCollection now input context db) = Ok r ->
  exists before,
    first (filter (fun c => ClipboardCollection.id c =? UpdateCollection.id input)
                  (ClipboardCollections db)) = Some before /\
    r = mkResponse true (Some (setCollection now input before)) /\
    final (updateCollection now input context db)
    = put CollectionsT
        (map (fun c => if ClipboardCollection.id c =? UpdateCollection.id input
                       then setCollection now input c else c)
             (ClipboardCollections db)) db.
Proof.
  unfold updateCollection, defineAction.
  destruct (UpdateCollection.schema input) as [p|] eqn:Es; [|discriminate].
  apply UpdateCollection_schema_Some in Es as (-> & _ & _).
  unfold bind. guards; try discriminate.
  intros [= <-].
  assert (Hf : In c (filter (fun c => ClipboardCollection.id c
                                      =? UpdateCollection.id input)
                       (ClipboardCollections db))).
  { apply filter_In. split; [exact Hcin|]. rewrite Hcid. apply String.eqb_refl. }
  destruct (filter _ (ClipboardCollections db)) as [|before rest] eqn:Ef;
    [destruct Hf|].
  exists before. cbn. auto.
Qed.




(** ** Non-empty content *)

(** C2, the code at the failing input: [createClipboardItem] refuses an empty
    [content], and [updateCollection] refuses an empty [name], but
    [updateClipboardItem] accepts an empty [content] and stores it: Alice's
    second snippet has content [""] afterwards. *)
Theorem updateClipboardItem_stores_empty_content :
  (forall now uuid context db,
      createClipboardItem now uuid (Demo.snippet "" false false) context db
      = mkOutcome (Throw BAD_REQUEST) db []) /\
  (forall now context db,
      updateCollection now (UpdateCollection.mk Demo.c1 (Some "") None None None)
        context db
      = mkOutcome (Throw BAD_REQUEST) db []) /\
  let o :=
    updateClipboardItem
      (UpdateClipboardItem.mk Demo.i2 None (Some "") None None None None None None)
      Demo.alice Demo.db in
  exists after,
    result o = Ok (mkResponse true (Some after)) /\
    In after (ClipboardItems (final o)) /\
    ClipboardItem.id after = Demo.i2 /\
    ClipboardItem.content after = "".
Proof.
  split; [|split].
  - reflexivity.
  - reflexivity.
  - eexists. split; [vm_compute; reflexivity|].
    split; [vm_compute; auto|]. split; reflexivity.
Qed.

(** ** Unauthorized callers and failed requests *)

Lemma requireUser_anonymous context db :
  anonymous context ->
  requireUser context db = mkOutcome (Throw UNAUTHORIZED) db [].
Proof. unfold requireUser. now intros [->| ->]. Qed.

(** C9, as the code has it: a request without a signed-in user whose input
    parses throws UNAUTHORIZED with no storage statement issued (one whose
    input does not parse throws the input error instead, the schema being
    checked before the caller); and a request that throws, whatever the
    error, leaves the database exactly as it was. *)
Theorem unauthorized_before_storage_and_failures_keep_db :
  forall req context db,
    (anonymous context -> parses req = true ->
     server req context db = mkOutcome (Throw UNAUTHORIZED) db []) /\
    (parses req = false ->
     server req context db = mkOutcome (Throw BAD_REQUEST) db []) /\
    (forall e, result (server req context db) = Throw e ->
               final (server req context db) = db).
Proof.
  intros req context db. split; [|split].
  - intros Hanon Hparse.
    pose proof (requireUser_anonymous context db Hanon) as E.
    destruct req; simpl in *;
      unfold createClipboardItem, updateClipboardItem, listClipboardItems,
        createCollection, updateCollection, listCollections,
        addItemToCollection, removeItemFromCollection, listCollectionItems,
        defineAction, ListClipboardItems.schema;
      cbn beta iota;
      try match goal with
          | |- context [match ?s with Some _ => _ | None => _ end] =>
              destruct s; [|discriminate]
          end;
      erewrite bind_Throw by exact E; reflexivity.
  - intros Hparse.
    destruct req; simpl in *; try discriminate;
      unfold createClipboardItem, updateClipboardItem, listClipboardItems,
        createCollection, updateCollection,
        addItemToCollection, removeItemFromCollection, listCollectionItems,
        defineAction;
      match goal with
      | |- context [match ?s with Some _ => _ | None => _ end] =>
          destruct s; [discriminate|reflexivity]
      end.
  - intros e. apply server_failure.
Qed.

Lemma unauthorized_before_storage_and_failures_keep_db_witness :
  server (ListCollectionItemsReq (ListCollectionItems.mk Demo.c1))
    Demo.nobody Demo.db
  = mkOutcome (Throw UNAUTHORIZED) Demo.db [] /\
  server (UpdateClipboardItemReq
            (UpdateClipboardItem.mk Demo.i1 None None None None None None None None))
    Demo.nobody Demo.db
  = mkOutcome (Throw BAD_REQUEST) Demo.db [] /\
  final (server (RemoveItemFromCollectionReq (LinkInput.mk Demo.c1 Demo.i3))
           Demo.alice Demo.db) = Demo.db.
Proof.
  split; [|split].
  - apply (proj1 (unauthorized_before_storage_and_failures_keep_db
                    (ListCollectionItemsReq (ListCollectionItems.mk Demo.c1))
                    Demo.nobody Demo.db)).
    + left. reflexivity.
    + reflexivity.
  - apply (proj1 (proj2 (unauthorized_before_storage_and_failures_keep_db
                    (UpdateClipboardItemReq
                       (UpdateClipboardItem.mk Demo.i1 None None None None None
                          None None None))
                    Demo.nobody Demo.db))).
    reflexivity.
  - apply (proj2 (proj2 (unauthorized_before_storage_and_failures_keep_db
                    (RemoveItemFromCollectionReq (LinkInput.mk Demo.c1 Demo.i3))
                    Demo.alice Demo.db)) NOT_FOUND).
    vm_compute. reflexivity.
Defined.

(** C9, the counterexample: creating an item with empty content without being
    signed in throws the input error, not UNAUTHORIZED. *)
Lemma anonymous_invalid_input_is_bad_request :
  parses (CreateClipboardItemReq 1%Z Demo.i1 (Demo.snippet "" false false)) = false /\
  result (server (CreateClipboardItemReq 1%Z Demo.i1 (Demo.snippet "" false false))
            Demo.nobody emptyDb)
  = Throw BAD_REQUEST /\
  result (server (CreateClipboardItemReq 1%Z Demo.i1 (Demo.snippet "" false false))
            Demo.nobody emptyDb)
  <> Throw UNAUTHORIZED.
Proof.
  split; [reflexivity|]. split; [reflexivity|]. discriminate.
Qed.

(** ** Ownership isolation *)

Lemma getOwnedItem_foreign db a b i :
  consistent db -> In i (ClipboardItems db) ->
  ClipboardItem.userId i = a -> a <> b ->
  getOwnedItem (ClipboardItem.id i) b db
  = mkOutcome (Throw NOT_FOUND) db [SELECT ITEMS].
Proof.
  intros Hcons Hin Ha Hab.
  destruct (getOwnedItem_cases (ClipboardItem.id i) b db)
    as [(it & _ & Hit & Hid & Hu) | (E & _)]; [|exact E].
  exfalso. apply Hab.
  rewrite (NoDup_map_eq ClipboardItem.id _ it i (items_pk db Hcons) Hit Hin Hid)
    in Hu.
  congruence.
Qed.

Lemma getOwnedCollection_foreign db a b c :
  consistent db -> In c (ClipboardCollections db) ->
  ClipboardCollection.userId c = a -> a <> b ->
  getOwnedCollection (ClipboardCollection.id c) b db
  = mkOutcome (Throw NOT_FOUND) db [SELECT COLLECTIONS].
Proof.
  intros Hcons Hin Ha Hab.
  destruct (getOwnedCollection_cases (ClipboardCollection.id c) b db)
    as [(c' & _ & Hc' & Hid & Hu) | (E & _)]; [|exact E].
  exfalso. apply Hab.
  rewrite (NoDup_map_eq ClipboardCollection.id _ c' c
             (collections_pk db Hcons) Hc' Hin Hid) in Hu.
  congruence.
Qed.

(** C1, as the code has it.  On a reachable database, for an item or a
    collection of user [a] and a signed-in caller [b] other than [a]: every
    request of [b] that names it and whose input parses ([updateClipboardItem],
    [updateCollection], [addItemToCollection] and [removeItemFromCollection]
    with it on either side, whoever owns the other side, [listCollectionItems])
    throws NOT_FOUND and leaves the database as it was; and the listings [b]
    is given ([listClipboardItems], [listCollections], [listCollectionItems])
    hold rows of [b] only. *)
Theorem ownership_isolation :
  forall db a b,
    reachable db -> a <> b ->
    (forall i, In i (ClipboardItems db) -> ClipboardItem.userId i = a ->
       (forall input,
           UpdateClipboardItem.id input = ClipboardItem.id i ->
           defined (UpdateClipboardItem.schema input) = true ->
           updateClipboardItem input (signedIn b) db
           = mkOutcome (Throw NOT_FOUND) db [SELECT ITEMS]) /\
       (forall now uuid input,
           LinkInput.itemId input = ClipboardItem.id i ->
           defined (LinkInput.schema input) = true ->
           result (addItemToCollection now uuid input (signedIn b) db)
           = Throw NOT_FOUND /\
           final (addItemToCollection now uuid input (signedIn b) db) = db) /\
       (forall input,
           LinkInput.itemId input = ClipboardItem.id i ->
           defined (LinkInput.schema input) = true ->
           result (removeItemFromCollection input (signedIn b) db)
           = Throw NOT_FOUND /\
           final (removeItemFromCollection input (signedIn b) db) = db)) /\
    (forall c, In c (ClipboardCollections db) -> ClipboardCollection.userId c = a ->
       (forall now input,
           UpdateCollection.id input = ClipboardCollection.id c ->
           defined (UpdateCollection.schema input) = true ->
           updateCollection now input (signedIn b) db
           = mkOutcome (Throw NOT_FOUND) db [SELECT COLLECTIONS]) /\
       (forall now uuid input,
           LinkInput.collectionId input = ClipboardCollection.id c ->
           defined (LinkInput.schema input) = true ->
           addItemToCollection now uuid input (signedIn b) db
           = mkOutcome (Throw NOT_FOUND) db [SELECT COLLECTIONS]) /\
       (forall input,
           LinkInput.collectionId input = ClipboardCollection.id c ->
           defined (LinkInput.schema input) = true ->
           removeItemFromCollection input (signedIn b) db
           = mkOutcome (Throw NOT_FOUND) db [SELECT COLLECTIONS]) /\
       listCollectionItems (ListCollectionItems.mk (ClipboardCollection.id c))
         (signedIn b) db
       = mkOutcome (Throw NOT_FOUND) db [SELECT COLLECTIONS]) /\
    (forall input r,
        result (listClipboardItems input (signedIn b) db) = Ok r ->
        forall i, In i (items (data r)) -> ClipboardItem.userId i = b) /\
    (forall r,
        result (listCollections tt (signedIn b) db) = Ok r ->
        forall c, In c (items (data r)) -> ClipboardCollection.userId c = b) /\
    (forall input r,
        result (listCollectionItems input (signedIn b) db) = Ok r ->
        forall i, In i (items (data r)) -> ClipboardItem.userId i = b).
Proof.
  intros db a b Hreach Hab.
  pose proof (reachable_consistent db Hreach) as Hcons.
  split; [|split; [|split; [|split]]].
  - intros i Hin Ha.
    pose proof (getOwnedItem_foreign db a b i Hcons Hin Ha Hab) as Ei.
    split; [|split].
    + intros input Hid Hparse.
      unfold updateClipboardItem, defineAction.
      destruct (UpdateClipboardItem.schema input) as [p|] eqn:Es; [|discriminate].
      apply UpdateClipboardItem_schema_Some in Es as (-> & _ & _).
      unfold bind. rewrite requireUser_signedIn. cbn.
      rewrite Hid, Ei. reflexivity.
    + intros now uuid input Hid Hparse.
      unfold addItemToCollection, defineAction.
      destruct (LinkInput.schema input) as [p|] eqn:Es; [|discriminate].
      apply LinkInput_schema_Some in Es as (-> & _ & _).
      unfold bind. rewrite requireUser_signedIn. cbn.
      destruct (getOwnedCollection_cases (LinkInput.collectionId input) b db)
        as [(c & E & _) | (E & _)]; rewrite E; cbn; [|auto].
      rewrite Hid, Ei. auto.
    + intros input Hid Hparse.
      unfold removeItemFromCollection, defineAction.
      destruct (LinkInput.schema input) as [p|] eqn:Es; [|discriminate].
      apply LinkInput_schema_Some in Es as (-> & _ & _).
      unfold bind. rewrite requireUser_signedIn. cbn.
      destruct (getOwnedCollection_cases (LinkInput.collectionId input) b db)
        as [(c & E & _) | (E & _)]; rewrite E; cbn; [|auto].
      rewrite Hid, Ei. auto.
  - intros c Hin Ha.
    pose proof (getOwnedCollection_foreign db a b c Hcons Hin Ha Hab) as Ec.
    split; [|split; [|split]].
    + intros now input Hid Hparse.
      unfold updateCollection, defineAction.
      destruct (UpdateCollection.schema input) as [p|] eqn:Es; [|discriminate].
      apply UpdateCollection_schema_Some in Es as (-> & _ & _).
      unfold bind. rewrite requireUser_signedIn. cbn.
      rewrite Hid, Ec. reflexivity.
    + intros now uuid input Hid Hparse.
      unfold addItemToCollection, defineAction.
      destruct (LinkInput.schema input) as [p|] eqn:Es; [|discriminate].
      apply LinkInput_schema_Some in Es as (-> & _ & _).
      unfold bind. rewrite requireUser_signedIn. cbn.
      rewrite Hid, Ec. reflexivity.
    + intros input Hid Hparse.
      unfold removeItemFromCollection, defineAction.
      destruct (LinkInput.schema input) as [p|] eqn:Es; [|discriminate].
      apply LinkInput_schema_Some in Es as (-> & _ & _).
      unfold bind. rewrite requireUser_signedIn. cbn.
      rewrite Hid, Ec. reflexivity.
    + unfold listCollectionItems, defineAction, ListCollectionItems.schema.
      cbn [ListCollectionItems.collectionId].
      rewrite (min1_isUUID _ (collections_uuid db Hcons c Hin)).
      unfold bind. rewrite requireUser_signedIn. cbn.
      rewrite Ec. reflexivity.
  - intros input r Hr i Hi.
    rewrite listClipboardItems_run in Hr. cbn in Hr. injection Hr as <-.
    cbn in Hi. apply filter_In in Hi as [_ Hi].
    apply andb_true_iff in Hi as [Hi _]. now apply String.eqb_eq.
  - intros r Hr c Hc.
    unfold listCollections, defineAction, bind, select in Hr.
    rewrite requireUser_signedIn in Hr. cbn in Hr. injection Hr as <-.
    cbn in Hc. apply filter_In in Hc as [_ Hc]. now apply String.eqb_eq.
  - intros input r Hr i Hi.
    destruct (listCollectionItems_Ok _ _ _ _ Hr)
      as (-> & u & c & Hloc & Hcin & Hcid & Hcu).
    cbn in Hloc. injection Hloc as <-. cbn in Hcu.
    cbn in Hi. apply filter_In in Hi as [Hiin Hi].
    apply inArray_In in Hi. apply in_map_iff in Hi as (l & Hl & Hlin).
    apply filter_In in Hlin as [Hlin Hlc]. apply String.eqb_eq in Hlc.
    destruct (links_owned db Hcons l Hlin)
      as (c' & i' & Hc' & Hi' & Hc'id & Hi'id & Hsame).
    assert (c' = c).
    { apply (NoDup_map_eq ClipboardCollection.id _ c' c
               (collections_pk db Hcons) Hc' Hcin). congruence. }
    assert (i' = i).
    { apply (NoDup_map_eq ClipboardItem.id _ i' i
               (items_pk db Hcons) Hi' Hiin). congruence. }
    subst c' i'. congruence.
Qed.

Lemma ownership_isolation_witness :
  updateClipboardItem
    (UpdateClipboardItem.mk Demo.i1 None (Some "mine") None None None None None None)
    Demo.bob Demo.db
  = mkOutcome (Throw NOT_FOUND) Demo.db [SELECT ITEMS] /\
  result (addItemToCollection 400%Z "00000000-0000-4000-8000-0000000000d5"
            (LinkInput.mk Demo.c2 Demo.i1) Demo.bob Demo.db)
  = Throw NOT_FOUND.
Proof.
  assert (Hne : "alice" <> "bob") by discriminate.
  destruct (ownership_isolation Demo.db "alice" "bob" Demo_reachable Hne)
    as (Hitems & _).
  destruct (Hitems Demo.first_row) as (Hupd & Hadd & _).
  - vm_compute. auto.
  - reflexivity.
  - split.
    + apply Hupd; reflexivity.
    + apply Hadd; reflexivity.
Defined.

(** C1, the counterexample: Bob updating Alice's first snippet with no field
    supplied is thrown the input error, not NOT_FOUND. *)
Lemma foreign_zero_field_update_is_bad_request :
  reachable Demo.db /\
  In Demo.first_row (ClipboardItems Demo.db) /\
  ClipboardItem.userId Demo.first_row = "alice" /\
  result (updateClipboardItem
            (UpdateClipboardItem.mk (ClipboardItem.id Demo.first_row)
               None None None None None None None None)
            (signedIn "bob") Demo.db)
  = Throw BAD_REQUEST /\
  result (updateClipboardItem
            (UpdateClipboardItem.mk (ClipboardItem.id Demo.first_row)
               None None None None None None None None)
            (signedIn "bob") Demo.db)
  <> Throw NOT_FOUND.
Proof.
  split; [exact Demo_reachable|].
  split; [vm_compute; auto|].
  split; [reflexivity|].
  split; [vm_compute; reflexivity|vm_compute; discriminate].
Qed.

(** * Further properties of the actions *)

(** ** What a request can do to the database *)

Lemma CreateClipboardItem_schema_Some input p :
  CreateClipboardItem.schema input = Some p ->
  p = input /\ min1 (CreateClipboardItem.content input) = true.
Proof.
  unfold CreateClipboardItem.schema.
  destruct (min1 _) eqn:E; simpl; [|discriminate].
  destruct (optional zDate _); [|discriminate]. intros [= <-]. auto.
Qed.

Lemma CreateCollection_schema_Some input p :
  CreateCollection.schema input = Some p ->
  p = input /\ min1 (CreateCollection.name input) = true.
Proof.
  unfold CreateCollection.schema.
  destruct (min1 _) eqn:E; [|discriminate]. intros [= <-]. auto.
Qed.

Lemma UpdateCollection_schema_name input p :
  UpdateCollection.schema input = Some p ->
  match UpdateCollection.name input with
  | Some n => min1 n = true
  | None => True
  end.
Proof.
  unfold UpdateCollection.schema.
  destruct (min1 (UpdateCollection.id input)); simpl; [|discriminate].
  destruct (UpdateCollection.name input) as [n|]; [|auto].
  destruct (min1 n); [auto|discriminate].
Qed.

(** Every request either leaves the database as it was or changes it in one
    of the six ways of [change]. *)
Lemma server_change req context db :
  final (server req context db) = db \/
  change context db req (final (server req context db)).
Proof.
  destruct req; simpl.
  - unfold createClipboardItem, defineAction.
    destruct (CreateClipboardItem.schema input) as [p|] eqn:Es; [|now left].
    apply CreateClipboardItem_schema_Some in Es as (-> & Hm).
    unfold bind. guards; [|now left].
    unfold insert; cbn. destruct (existsb _ _) eqn:E; cbn; [now left|].
    right. now apply change_createClipboardItem.
  - unfold updateClipboardItem, defineAction.
    destruct (UpdateClipboardItem.schema input) as [p|] eqn:Es; [|now left].
    apply UpdateClipboardItem_schema_Some in Es as (-> & _ & _).
    unfold bind. guards; try now left.
    right. now apply (change_updateClipboardItem context db input u it).
  - left. unfold listClipboardItems, defineAction.
    destruct (ListClipboardItems.schema input) as [p|]; [|reflexivity].
    unfold bind. guards; reflexivity.
  - unfold createCollection, defineAction.
    destruct (CreateCollection.schema input) as [p|] eqn:Es; [|now left].
    apply CreateCollection_schema_Some in Es as (-> & Hm).
    unfold bind. guards; [|now left].
    unfold insert; cbn. destruct (existsb _ _) eqn:E; cbn; [now left|].
    right. now apply change_createCollection.
  - unfold updateCollection, defineAction.
    destruct (UpdateCollection.schema input) as [p|] eqn:Es; [|now left].
    pose proof (UpdateCollection_schema_name _ _ Es) as Hname.
    apply UpdateCollection_schema_Some in Es as (-> & _ & _).
    unfold bind. guards; try now left.
    right. now apply (change_updateCollection context db now input u c).
  - left. unfold listCollections, defineAction, bind. guards; reflexivity.
  - unfold addItemToCollection, defineAction.
    destruct (LinkInput.schema input) as [p|] eqn:Es; [|now left].
    apply LinkInput_schema_Some in Es as (-> & _ & _).
    unfold bind. guards; try now left.
    unfold insert; cbn. destruct (existsb _ _) eqn:E; cbn; [now left|].
    right. now apply (change_addItemToCollection context db now randomUUID input u c it).
  - unfold removeItemFromCollection, defineAction.
    destruct (LinkInput.schema input) as [p|] eqn:Es; [|now left].
    apply LinkInput_schema_Some in Es as (-> & _ & _).
    unfold bind. guards; try now left.
    right.
    destruct (Nat.eqb _ 0); cbn;
      now apply (change_removeItemFromCollection context db input u c it).
  - left. unfold listCollectionItems, defineAction.
    destruct (ListCollectionItems.schema input) as [p|]; [|reflexivity].
    unfold bind. guards; try reflexivity.
    destruct (Nat.eqb _ 0); reflexivity.
Qed.

Lemma locals_signedIn context u :
  locals context = Some (mkLocals (Some u)) -> context = signedIn (uid u).
Proof. destruct context as [l], u as [n]; simpl. now intros ->. Qed.

Lemma min1_nonempty (s : string) : min1 s = true -> s <> "".
Proof. intros H ->. discriminate. Qed.

(** ** Creating rows *)

(** X1: for texts without the NUL character (the input's, the caller's id and
    the UUID), a [createClipboardItem] that returned has appended exactly one
    row to the items table and returned it: the row carries the given UUID,
    the id of the signed-in caller as owner, the current time as [createdAt],
    the non-empty content and the optional columns of the input, and [false]
    for a flag the input left out; the rows already there and the two other
    tables are as before. *)
Theorem createClipboardItem_appends_owned_row :
  forall now uuid input context db r,
    noNulCreateClipboardItem input = true ->
    noNul uuid = true ->
    callerNoNul context = true ->
    result (createClipboardItem now uuid input context db) = Ok r ->
    let db' := final (createClipboardItem now uuid input context db) in
    exists u row,
      locals context = Some (mkLocals (Some u)) /\
      r = mkResponse true (Some row) /\
      ClipboardItems db' = ClipboardItems db ++ [row] /\
      ClipboardCollections db' = ClipboardCollections db /\
      ClipboardCollectionItems db' = ClipboardCollectionItems db /\
      ~ In uuid (map ClipboardItem.id (ClipboardItems db)) /\
      ClipboardItem.id row = uuid /\
      ClipboardItem.userId row = uid u /\
      ClipboardItem.createdAt row = now /\
      ClipboardItem.content row = CreateClipboardItem.content input /\
      ClipboardItem.content row <> "" /\
      ClipboardItem.contentType row = CreateClipboardItem.contentType input /\
      ClipboardItem.normalizedPreview row
      = CreateClipboardItem.normalizedPreview input /\
      ClipboardItem.sourceApp row = CreateClipboardItem.sourceApp input /\
      ClipboardItem.sourceDevice row = CreateClipboardItem.sourceDevice input /\
      ClipboardItem.lastCopiedAt row = CreateClipboardItem.lastCopiedAt input /\
      written (CreateClipboardItem.isPinned input) false (ClipboardItem.isPinned row) /\
      written (CreateClipboardItem.isArchived input) false
        (ClipboardItem.isArchived row).
Proof.
  intros now uuid input context db r _ _ _.
  unfold createClipboardItem, defineAction.
  destruct (CreateClipboardItem.schema input) as [p|] eqn:Es; [|discriminate].
  apply CreateClipboardItem_schema_Some in Es as (-> & Hm).
  unfold bind. guards; [|discriminate].
  unfold insert; cbn. destruct (existsb _ _) eqn:E; cbn; [discriminate|].
  intros [= <-]. eexists u, _.
  split; [exact Hloc|]. split; [reflexivity|].
  split; [reflexivity|]. split; [reflexivity|]. split; [reflexivity|].
  split.
  { intros Hin. apply in_map_iff in Hin as (x & Hx & Hin).
    assert (Ht : existsb (fun r => ClipboardItem.id r =? uuid) (ClipboardItems db)
                 = true).
    { apply existsb_exists. exists x. split; [exact Hin|].
      rewrite Hx. apply String.eqb_refl. }
    cbn in E. congruence. }
  cbn. repeat (split; [reflexivity || (now apply min1_nonempty)|]).
  unfold written, orElse.
  split; [destruct (CreateClipboardItem.isPinned input)
         |destruct (CreateClipboardItem.isArchived input)]; reflexivity.
Qed.

Lemma createClipboardItem_appends_owned_row_witness :
  let uuid := "00000000-0000-4000-8000-0000000000a9" in
  let input := CreateClipboardItem.mk None "note" None None None None None None in
  exists r row,
    result (createClipboardItem 900%Z uuid input Demo.bob Demo.db) = Ok r /\
    r = mkResponse true (Some row) /\
    ClipboardItem.userId row = "bob" /\
    ClipboardItem.isPinned row = false /\
    ClipboardItems (final (createClipboardItem 900%Z uuid input Demo.bob Demo.db))
    = ClipboardItems Demo.db ++ [row].
Proof.
  intros uuid input. eexists.
  match goal with
  | |- exists row, ?A /\ _ => assert (H : A) by (vm_compute; reflexivity)
  end.
  destruct (createClipboardItem_appends_owned_row 900%Z uuid input Demo.bob
              Demo.db _ eq_refl eq_refl eq_refl H)
    as (u & row & Hloc & Hr & Hitems & _ & _ & _ & _ & Hu & _ & _ & _ & _ & _
        & _ & _ & _ & Hp & _).
  exists row. injection Hloc as <-.
  split; [exact H|]. split; [exact Hr|]. split; [exact Hu|].
  split; [exact Hp|exact Hitems].
Defined.

(** X2: for texts without the NUL character (the input's, the caller's id and
    the UUID), a [createCollection] that returned has appended exactly one row
    to the collections table and returned it: the row carries the given UUID,
    the id of the signed-in caller as owner, the non-empty name, the current
    time as both [createdAt] and [updatedAt], and [isDefault] false when the
    input left it out; no other collection row is touched (in particular no
    other row loses its [isDefault]), and the two other tables are as
    before. *)
Theorem createCollection_appends_owned_row :
  forall now uuid input context db r,
    noNulCreateCollection input = true ->
    noNul uuid = true ->
    callerNoNul context = true ->
    result (createCollection now uuid input context db) = Ok r ->
    let db' := final (createCollection now uuid input context db) in
    exists u row,
      locals context = Some (mkLocals (Some u)) /\
      r = mkResponse true (Some row) /\
      ClipboardCollections db' = ClipboardCollections db ++ [row] /\
      ClipboardItems db' = ClipboardItems db /\
      ClipboardCollectionItems db' = ClipboardCollectionItems db /\
      ~ In uuid (map ClipboardCollection.id (ClipboardCollections db)) /\
      ClipboardCollection.id row = uuid /\
      ClipboardCollection.userId row = uid u /\
      ClipboardCollection.createdAt row = now /\
      ClipboardCollection.updatedAt row = now /\
      ClipboardCollection.name row = CreateCollection.name input /\
      ClipboardCollection.name row <> "" /\
      ClipboardCollection.description row = CreateCollection.description input /\
      ClipboardCollection.icon row = CreateCollection.icon input /\
      written (CreateCollection.isDefault input) false
        (ClipboardCollection.isDefault row).
Proof.
  intros now uuid input context db r _ _ _.
  unfold createCollection, defineAction.
  destruct (CreateCollection.schema input) as [p|] eqn:Es; [|discriminate].
  apply CreateCollection_schema_Some in Es as (-> & Hm).
  unfold bind. guards; [|discriminate].
  unfold insert; cbn. destruct (existsb _ _) eqn:E; cbn; [discriminate|].
  intros [= <-]. eexists u, _.
  split; [exact Hloc|]. split; [reflexivity|].
  split; [reflexivity|]. split; [reflexivity|]. split; [reflexivity|].
  split.
  { intros Hin. apply in_map_iff in Hin as (x & Hx & Hin).
    assert (Ht : existsb (fun r => ClipboardCollection.id r =? uuid)
                   (ClipboardCollections db) = true).
    { apply existsb_exists. exists x. split; [exact Hin|].
      rewrite Hx. apply String.eqb_refl. }
    cbn in E. congruence. }
  cbn. repeat (split; [reflexivity || (now apply min1_nonempty)|]).
  unfold written, orElse.
  destruct (CreateCollection.isDefault input); reflexivity.
Qed.

Lemma createCollection_appends_owned_row_witness :
  let uuid := "00000000-0000-4000-8000-0000000000c9" in
  let input := CreateCollection.mk "later" None None (Some true) in
  exists r row,
    result (createCollection 901%Z uuid input Demo.alice Demo.db) = Ok r /\
    r = mkResponse true (Some row) /\
    ClipboardCollection.userId row = "alice" /\
    ClipboardCollection.updatedAt row = ClipboardCollection.createdAt row /\
    ClipboardCollections (final (createCollection 901%Z uuid input Demo.alice Demo.db))
    = ClipboardCollections Demo.db ++ [row].
Proof.
  intros uuid input. eexists.
  match goal with
  | |- exists row, ?A /\ _ => assert (H : A) by (vm_compute; reflexivity)
  end.
  destruct (createCollection_appends_owned_row 901%Z uuid input Demo.alice
              Demo.db _ eq_refl eq_refl eq_refl H)
    as (u & row & Hloc & Hr & Hrows & _ & _ & _ & _ & Hu & Hc & Hup & _).
  exists row. injection Hloc as <-.
  split; [exact H|]. split; [exact Hr|]. split; [exact Hu|].
  split; [congruence|exact Hrows].
Defined.

(** ** A created row, looked up *)

Lemma createClipboardItem_Ok now uuid input context db r :
  result (createClipboardItem now uuid input context db) = Ok r ->
  exists u row,
    locals context = Some (mkLocals (Some u)) /\
    r = mkResponse true (Some row) /\
    ClipboardItem.id row = uuid /\
    ClipboardItem.userId row = uid u /\
    existsb (fun x => ClipboardItem.id x =? uuid) (ClipboardItems db) = false /\
    final (createClipboardItem now uuid input context db)
    = put ItemsT (ClipboardItems db ++ [row]) db.
Proof.
  unfold createClipboardItem, defineAction.
  destruct (CreateClipboardItem.schema input) as [p|] eqn:Es; [|discriminate].
  unfold bind. guards; [|discriminate].
  unfold insert; cbn. destruct (existsb _ _) eqn:E; cbn; [discriminate|].
  intros [= <-]. eexists u, _. repeat (split; [reflexivity || eassumption|]).
  reflexivity.
Qed.


Lemma filter_fresh_key {R} (key : R -> string) (k : string) (p : R -> bool)
  (l : list R) :
  existsb (fun x => key x =? k) l = false ->
  filter (fun x => (key x =? k) && p x) l = [].
Proof.
  induction l as [|y l IH]; simpl; [reflexivity|].
  intros H. apply orb_false_iff in H as [Hy Hl].
  rewrite Hy. simpl. auto.
Qed.

(** X3: after a [createClipboardItem] that returned, the ownership guard
    finds the new row under its UUID for the caller who created it and for
    nobody else, and a listing by that caller holds the new row exactly when
    the row passes the archive and pin filters of the listing. *)
Theorem created_item_is_found_by_its_owner_only :
  forall now uuid input context db r,
    result (createClipboardItem now uuid input context db) = Ok r ->
    let db' := final (createClipboardItem now uuid input context db) in
    exists u row,
      locals context = Some (mkLocals (Some u)) /\
      data r = Some row /\
      getOwnedItem uuid (uid u) db' = mkOutcome (Ok row) db' [SELECT ITEMS] /\
      (forall other, other <> uid u ->
         getOwnedItem uuid other db'
         = mkOutcome (Throw NOT_FOUND) db' [SELECT ITEMS]) /\
      (forall list, exists found,
         result (listClipboardItems list context db')
         = Ok (mkResponse true (mkListing found (length found))) /\
         (In row found <->
          (orElse (ListClipboardItems.includeArchived list) false = false ->
           ClipboardItem.isArchived row = false) /\
          (orElse (ListClipboardItems.pinnedOnly list) false = true ->
           ClipboardItem.isPinned row = true))).
Proof.
  intros now uuid input context db r Hr db'.
  destruct (createClipboardItem_Ok _ _ _ _ _ _ Hr)
    as (u & row & Hloc & -> & Hid & Hu & Hfresh & Hfinal).
  subst db'. rewrite Hfinal. exists u, row.
  split; [exact Hloc|]. split; [reflexivity|].
  split; [|split].
  - unfold getOwnedItem, bind, select. cbn.
    rewrite filter_app, (filter_fresh_key ClipboardItem.id uuid _ _ Hfresh). cbn.
    rewrite Hid, Hu, !String.eqb_refl. reflexivity.
  - intros other Hother.
    unfold getOwnedItem, bind, select. cbn.
    rewrite filter_app, (filter_fresh_key ClipboardItem.id uuid _ _ Hfresh). cbn.
    rewrite Hu. apply not_eq_sym in Hother.
    apply String.eqb_neq in Hother. rewrite Hother, andb_false_r. reflexivity.
  - intros list. rewrite (locals_signedIn _ _ Hloc).
    rewrite listClipboardItems_run. cbn. eexists. split; [reflexivity|].
    rewrite filter_In. cbn. rewrite Hu, String.eqb_refl. cbn.
    destruct (orElse (ListClipboardItems.includeArchived list) false),
      (orElse (ListClipboardItems.pinnedOnly list) false); cbn;
      rewrite ?andb_true_iff, ?negb_true_iff;
      intuition (auto using in_or_app, in_eq; congruence).
Qed.

Lemma created_item_is_found_by_its_owner_only_witness :
  let uuid := "00000000-0000-4000-8000-0000000000a9" in
  let input := Demo.snippet "draft" false true in
  let db' := final (createClipboardItem 900%Z uuid input Demo.bob Demo.db) in
  exists r row,
    result (createClipboardItem 900%Z uuid input Demo.bob Demo.db) = Ok r /\
    data r = Some row /\
    getOwnedItem uuid "bob" db' = mkOutcome (Ok row) db' [SELECT ITEMS] /\
    getOwnedItem uuid "alice" db' = mkOutcome (Throw NOT_FOUND) db' [SELECT ITEMS].
Proof.
  intros uuid input db'. eexists.
  match goal with
  | |- exists row, ?A /\ _ => assert (H : A) by (vm_compute; reflexivity)
  end.
  destruct (created_item_is_found_by_its_owner_only _ _ _ _ _ _ H)
    as (u & row & Hloc & Hrow & Hown & Hother & _).
  injection Hloc as <-. exists row.
  split; [exact H|]. split; [exact Hrow|]. split; [exact Hown|].
  apply Hother. discriminate.
Defined.

Lemma filter_owner_snoc {R} (owner : R -> string) (u : string) (l : list R) (v : R) :
  filter (fun x => owner x =? u) (l ++ [v])
  = filter (fun x => owner x =? u) l ++ (if owner v =? u then [v] else []).
Proof. rewrite filter_app. simpl. now destruct (owner v =? u). Qed.



(** ** Adding a link *)

Lemma existsb_fresh_key {R} (key : R -> string) (k : string) (l : list R) :
  ~ In k (map key l) -> existsb (fun x => key x =? k) l = false.
Proof.
  intros Hnot. destruct (existsb _ l) eqn:E; [|reflexivity].
  exfalso. apply Hnot. apply existsb_exists in E as (x & Hx & Hk).
  apply String.eqb_eq in Hk. subst k. now apply in_map.
Qed.

(** X5: [addItemToCollection] never looks for an existing link.  For a caller
    who owns the collection and the item it returns whenever the new UUID is
    not yet a link id, however many links already join the two; and when it
    has returned it has appended exactly one link row, stamped with the
    current time, so the number of links joining the pair has grown by one
    while the links of every other pair, the items and the collections are as
    before. *)
Theorem addItemToCollection_adds_one_link :
  forall now uuid input context db,
    let o := addItemToCollection now uuid input context db in
    let link :=
      ClipboardCollectionItem.mk uuid (LinkInput.collectionId input)
        (LinkInput.itemId input) now in
    (forall u c i,
        locals context = Some (mkLocals (Some u)) ->
        min1 (LinkInput.collectionId input) = true ->
        min1 (LinkInput.itemId input) = true ->
        In c (ClipboardCollections db) ->
        ClipboardCollection.id c = LinkInput.collectionId input ->
        ClipboardCollection.userId c = uid u ->
        In i (ClipboardItems db) ->
        ClipboardItem.id i = LinkInput.itemId input ->
        ClipboardItem.userId i = uid u ->
        ~ In uuid (map ClipboardCollectionItem.id (ClipboardCollectionItems db)) ->
        result o = Ok (mkResponse true (Some link))) /\
    (forall r,
        result o = Ok r ->
        r = mkResponse true (Some link) /\
        ClipboardCollectionItems (final o) = ClipboardCollectionItems db ++ [link] /\
        ClipboardItems (final o) = ClipboardItems db /\
        ClipboardCollections (final o) = ClipboardCollections db /\
        length (linksBetween (LinkInput.collectionId input)
                  (LinkInput.itemId input) (final o))
        = S (length (linksBetween (LinkInput.collectionId input)
                       (LinkInput.itemId input) db)) /\
        (forall collectionId itemId,
            ~ (collectionId = LinkInput.collectionId input /\
               itemId = LinkInput.itemId input) ->
            linksBetween collectionId itemId (final o)
            = linksBetween collectionId itemId db)).
Proof.
  intros now uuid input context db o link. split.
  - intros u c i Hloc Hm1 Hm2 Hcin Hcid Hcu Hiin Hiid Hiu Hfresh.
    subst o. unfold addItemToCollection, defineAction, LinkInput.schema.
    rewrite Hm1, Hm2. cbn. unfold bind.
    rewrite (requireUser_locals _ _ _ Hloc). cbn.
    guards.
    + unfold insert. cbn.
      fold (ClipboardCollectionItem.id).
      rewrite (existsb_fresh_key ClipboardCollectionItem.id uuid _ Hfresh).
      reflexivity.
    + exfalso. exact (Hino i Hiin Hiid Hiu).
    + exfalso. exact (Hcno c Hcin Hcid Hcu).
  - intros r Hr.
    destruct (addItemToCollection_Ok _ _ _ _ _ _ Hr)
      as (u & c & i & _ & _ & _ & _ & _ & _ & _ & _ & _ & -> & Hfinal).
    fold o in Hfinal. rewrite Hfinal. cbn.
    split; [reflexivity|]. split; [reflexivity|].
    split; [reflexivity|]. split; [reflexivity|].
    unfold linksBetween. cbn. split.
    + rewrite filter_app, length_app. cbn. rewrite !String.eqb_refl. cbn. lia.
    + intros cid iid Hne. rewrite filter_app. cbn.
      destruct (LinkInput.collectionId input =? cid) eqn:E1;
        destruct (LinkInput.itemId input =? iid) eqn:E2; cbn;
        rewrite ?app_nil_r; try reflexivity.
      apply String.eqb_eq in E1, E2. exfalso. apply Hne. auto.
Qed.

Lemma addItemToCollection_adds_one_link_witness :
  let uuid := "00000000-0000-4000-8000-0000000000d9" in
  let input := LinkInput.mk Demo.c1 Demo.i1 in
  let o := addItemToCollection 902%Z uuid input Demo.alice Demo.db in
  result o
  = Ok (mkResponse true
          (Some (ClipboardCollectionItem.mk uuid Demo.c1 Demo.i1 902%Z))) /\
  length (linksBetween Demo.c1 Demo.i1 Demo.db) = 2 /\
  length (linksBetween Demo.c1 Demo.i1 (final o)) = 3.
Proof.
  intros uuid input o.
  destruct (addItemToCollection_adds_one_link 902%Z uuid input Demo.alice Demo.db)
    as [Hok Heff].
  assert (H : result o
              = Ok (mkResponse true
                      (Some (ClipboardCollectionItem.mk uuid Demo.c1 Demo.i1
                               902%Z)))).
  { apply (Hok (mkUser "alice") Demo.work_row Demo.first_row).
    - reflexivity.
    - reflexivity.
    - reflexivity.
    - vm_compute. auto.
    - reflexivity.
    - reflexivity.
    - vm_compute. auto.
    - reflexivity.
    - reflexivity.
    - vm_compute. intuition discriminate. }
  split; [exact H|]. split; [vm_compute; reflexivity|].
  destruct (Heff _ H) as (_ & _ & _ & _ & Hcount & _).
  exact Hcount.
Defined.

(** ** Partial update of a collection *)

(** X6: an [updateCollection] that returned wrote, in the rows with the given
    id, the supplied columns and [updatedAt] and nothing else: an absent key
    leaves its column as it was, a supplied name is not empty, and [id],
    [userId] and [createdAt] are kept.  The row returned is such a row; every
    other row and the two other tables are as before. *)
Theorem updateCollection_only_supplied_fields :
  forall now input context db r,
    result (updateCollection now input context db) = Ok r ->
    let db' := final (updateCollection now input context db) in
    let touched := fun before after =>
      ClipboardCollection.id after = ClipboardCollection.id before /\
      ClipboardCollection.userId after = ClipboardCollection.userId before /\
      ClipboardCollection.createdAt after = ClipboardCollection.createdAt before /\
      ClipboardCollection.updatedAt after = now /\
      written (UpdateCollection.name input)
        (ClipboardCollection.name before) (ClipboardCollection.name after) /\
      writtenNullable (UpdateCollection.description input)
        (ClipboardCollection.description before)
        (ClipboardCollection.description after) /\
      writtenNullable (UpdateCollection.icon input)
        (ClipboardCollection.icon before) (ClipboardCollection.icon after) /\
      written (UpdateCollection.isDefault input)
        (ClipboardCollection.isDefault before)
        (ClipboardCollection.isDefault after) in
    UpdateCollection.name input <> Some "" /\
    (exists before after,
        In before (ClipboardCollections db) /\
        ClipboardCollection.id before = UpdateCollection.id input /\
        data r = Some after /\
        In after (ClipboardCollections db') /\
        touched before after) /\
    Forall2 (fun before after =>
               if ClipboardCollection.id before =? UpdateCollection.id input
               then touched before after
               else after = before)
            (ClipboardCollections db) (ClipboardCollections db') /\
    ClipboardItems db' = ClipboardItems db /\
    ClipboardCollectionItems db' = ClipboardCollectionItems db.
Proof.
  intros now input context db r Hr db' touched.
  assert (Hset : forall c, touched c (setCollection now input c)).
  { intros c. unfold touched, written, writtenNullable, orElse, setIfDefined.
    cbn. repeat (split; [reflexivity|]).
    destruct (UpdateCollection.name input), (UpdateCollection.description input),
      (UpdateCollection.icon input), (UpdateCollection.isDefault input);
      repeat split. }
  assert (Hname : UpdateCollection.name input <> Some "").
  { unfold updateCollection, defineAction in Hr.
    destruct (UpdateCollection.schema input) as [p|] eqn:Es; [|discriminate].
    pose proof (UpdateCollection_schema_name _ _ Es) as Hn.
    intros E. rewrite E in Hn. discriminate. }
  destruct (updateCollection_Ok _ _ _ _ _ Hr) as (before & Hb & -> & Hfinal).
  subst db'. rewrite Hfinal. cbn.
  destruct (first_filter_Some _ _ _ Hb) as [Hbin Hbid].
  split; [exact Hname|]. split; [|split; [|split; reflexivity]].
  - exists before, (setCollection now input before).
    split; [exact Hbin|]. split; [now apply String.eqb_eq|].
    split; [reflexivity|]. split; [|apply Hset].
    apply in_map_iff. exists before. now rewrite Hbid.
  - apply Forall2_update. exact Hset.
Qed.

Lemma updateCollection_only_supplied_fields_witness :
  let input := UpdateCollection.mk Demo.c1 None None (Some "pin") None in
  exists r after,
    result (updateCollection 903%Z input Demo.alice Demo.db) = Ok r /\
    data r = Some after /\
    ClipboardCollection.updatedAt after = 903%Z /\
    ClipboardItems (final (updateCollection 903%Z input Demo.alice Demo.db))
    = ClipboardItems Demo.db.
Proof.
  intros input. eexists.
  match goal with
  | |- exists after, ?A /\ _ => assert (H : A) by (vm_compute; reflexivity)
  end.
  destruct (updateCollection_only_supplied_fields _ _ _ _ _ H)
    as (_ & (before & after & _ & _ & Hd & _ & _ & _ & _ & Hu & _) & _ & Hi & _).
  exists after. auto.
Defined.

(** ** Storage statements of a request *)

(** X7: a request issues at most three storage statements; every statement
    before the last is a SELECT, so a request writes at most once and only as
    its last statement; a request that issued no write left the database as it
    was; and the three listing actions issue SELECTs only. *)
Theorem request_writes_at_most_once_and_last :
  forall req context db,
    let o := server req context db in
    length (trace o) <= 3 /\
    forallb isSelect (removelast (trace o)) = true /\
    (forallb isSelect (trace o) = true -> final o = db) /\
    match req with
    | ListClipboardItemsReq _ | ListCollectionsReq | ListCollectionItemsReq _ =>
        forallb isSelect (trace o) = true
    | _ => True
    end.
Proof.
  intros req context db o. subst o. destruct req; simpl.
  - unfold createClipboardItem, defineAction.
    destruct (CreateClipboardItem.schema input) as [p|]; [|cbn; auto].
    unfold bind. guards; [|cbn; auto].
    unfold insert; cbn. destruct (existsb _ _); cbn; auto.
    repeat split; auto. discriminate.
  - unfold updateClipboardItem, defineAction.
    destruct (UpdateClipboardItem.schema input) as [p|]; [|cbn; auto].
    unfold bind. guards; try (cbn; auto; fail).
    repeat split; auto. discriminate.
  - unfold listClipboardItems, defineAction.
    destruct (ListClipboardItems.schema input) as [p|]; [|cbn; auto].
    unfold bind. guards; cbn; auto.
  - unfold createCollection, defineAction.
    destruct (CreateCollection.schema input) as [p|]; [|cbn; auto].
    unfold bind. guards; [|cbn; auto].
    unfold insert; cbn. destruct (existsb _ _); cbn; auto.
    repeat split; auto. discriminate.
  - unfold updateCollection, defineAction.
    destruct (UpdateCollection.schema input) as [p|]; [|cbn; auto].
    unfold bind. guards; try (cbn; auto; fail).
    repeat split; auto. discriminate.
  - unfold listCollections, defineAction, bind. guards; cbn; auto.
  - unfold addItemToCollection, defineAction.
    destruct (LinkInput.schema input) as [p|]; [|cbn; auto].
    unfold bind. guards; try (cbn; auto; fail).
    unfold insert; cbn. destruct (existsb _ _); cbn; auto.
    repeat split; auto. discriminate.
  - unfold removeItemFromCollection, defineAction.
    destruct (LinkInput.schema input) as [p|]; [|cbn; auto].
    unfold bind. guards; try (cbn; auto; fail).
    destruct (Nat.eqb _ 0); cbn; repeat split; auto; discriminate.
  - unfold listCollectionItems, defineAction.
    destruct (ListCollectionItems.schema input) as [p|]; [|cbn; auto].
    unfold bind. guards; try (cbn; auto; fail).
    destruct (Nat.eqb _ 0); cbn; auto.
Qed.

Lemma request_writes_at_most_once_and_last_witness :
  trace (server (RemoveItemFromCollectionReq (LinkInput.mk Demo.c1 Demo.i1))
           Demo.alice Demo.db)
  = [SELECT COLLECTIONS; SELECT ITEMS; DELETE LINKS] /\
  final (server (ListCollectionItemsReq (ListCollectionItems.mk Demo.c1))
           Demo.alice Demo.db)
  = Demo.db.
Proof.
  split; [vm_compute; reflexivity|].
  apply (request_writes_at_most_once_and_last
           (ListCollectionItemsReq (ListCollectionItems.mk Demo.c1))
           Demo.alice Demo.db).
  vm_compute. reflexivity.
Defined.

(** ** Invariants of the reachable databases *)

(** X8: in every database the server can reach, no two rows of a table share
    an id, and every link row names a collection and an item that exist and
    have the same owner. *)
Theorem reachable_keys_unique_and_links_owned :
  forall db,
    reachable db ->
    NoDup (map ClipboardItem.id (ClipboardItems db)) /\
    NoDup (map ClipboardCollection.id (ClipboardCollections db)) /\
    NoDup (map ClipboardCollectionItem.id (ClipboardCollectionItems db)) /\
    forall l, In l (ClipboardCollectionItems db) ->
      exists c i,
        In c (ClipboardCollections db) /\ In i (ClipboardItems db) /\
        ClipboardCollection.id c = ClipboardCollectionItem.collectionId l /\
        ClipboardItem.id i = ClipboardCollectionItem.itemId l /\
        ClipboardCollection.userId c = ClipboardItem.userId i.
Proof.
  intros db Hreach.
  destruct (reachable_consistent db Hreach) as [Hi Hc Hl _ _ Hown].
  auto.
Qed.

Lemma reachable_keys_unique_and_links_owned_witness :
  NoDup (map ClipboardCollectionItem.id (ClipboardCollectionItems Demo.db)).
Proof.
  exact (proj1 (proj2 (proj2 (reachable_keys_unique_and_links_owned
                                Demo.db Demo_reachable)))).
Defined.

(** ** What no request does *)

Lemma Forall2_same {R} (P : R -> R -> Prop) (f : R -> R) (l : list R) :
  (forall r, P r (f r)) -> Forall2 P l (map f l).
Proof. intros H. induction l; simpl; constructor; auto. Qed.

(** X10: no request deletes an item or a collection or changes the id, the
    owner or the creation time of one: after any request each of the two
    tables is the table before, row for row with those three columns kept,
    followed by at most the rows the request inserted.  And no request
    modifies a link row: a link row found afterwards is a row that was there
    or has an id that was not there. *)
Theorem rows_persist_with_their_owner :
  forall req context db,
    let db' := final (server req context db) in
    (exists kept more,
        ClipboardItems db' = kept ++ more /\ length more <= 1 /\
        Forall2 (fun before after =>
                   ClipboardItem.id after = ClipboardItem.id before /\
                   ClipboardItem.userId after = ClipboardItem.userId before /\
                   ClipboardItem.createdAt after = ClipboardItem.createdAt before)
                (ClipboardItems db) kept) /\
    (exists kept more,
        ClipboardCollections db' = kept ++ more /\ length more <= 1 /\
        Forall2 (fun before after =>
                   ClipboardCollection.id after = ClipboardCollection.id before /\
                   ClipboardCollection.userId after
                   = ClipboardCollection.userId before /\
                   ClipboardCollection.createdAt after
                   = ClipboardCollection.createdAt before)
                (ClipboardCollections db) kept) /\
    (forall l, In l (ClipboardCollectionItems db') ->
               In l (ClipboardCollectionItems db) \/
               ~ In (ClipboardCollectionItem.id l)
                    (map ClipboardCollectionItem.id (ClipboardCollectionItems db))).
Proof.
  intros req context db db'.
  pose proof (server_change req context db) as H. fold db' in H. clearbody db'.
  assert (Hself_i : exists kept more,
             ClipboardItems db = kept ++ more /\ length more <= 1 /\
             Forall2 (fun before after =>
                        ClipboardItem.id after = ClipboardItem.id before /\
                        ClipboardItem.userId after = ClipboardItem.userId before /\
                        ClipboardItem.createdAt after
                        = ClipboardItem.createdAt before)
                     (ClipboardItems db) kept).
  { exists (ClipboardItems db), []. rewrite app_nil_r. split; [reflexivity|].
    split; [simpl; lia|]. rewrite <- (map_id (ClipboardItems db)) at 2.
    apply Forall2_same. auto. }
  assert (Hself_c : exists kept more,
             ClipboardCollections db = kept ++ more /\ length more <= 1 /\
             Forall2 (fun before after =>
                        ClipboardCollection.id after = ClipboardCollection.id before /\
                        ClipboardCollection.userId after
                        = ClipboardCollection.userId before /\
                        ClipboardCollection.createdAt after
                        = ClipboardCollection.createdAt before)
                     (ClipboardCollections db) kept).
  { exists (ClipboardCollections db), []. rewrite app_nil_r. split; [reflexivity|].
    split; [simpl; lia|]. rewrite <- (map_id (ClipboardCollections db)) at 2.
    apply Forall2_same. auto. }
  destruct H as [->|Hch]; [auto|].
  destruct Hch; cbn; (split; [|split]); auto.
  - exists (ClipboardItems db). eexists. split; [reflexivity|].
    split; [simpl; lia|].
    rewrite <- (map_id (ClipboardItems db)) at 2. apply Forall2_same. auto.
  - eexists. exists []. rewrite app_nil_r. split; [reflexivity|].
    split; [simpl; lia|]. apply Forall2_same.
    intros r. destruct (ClipboardItem.id r =? UpdateClipboardItem.id input); auto.
  - exists (ClipboardCollections db). eexists. split; [reflexivity|].
    split; [simpl; lia|].
    rewrite <- (map_id (ClipboardCollections db)) at 2. apply Forall2_same. auto.
  - eexists. exists []. rewrite app_nil_r. split; [reflexivity|].
    split; [simpl; lia|]. apply Forall2_same.
    intros r. destruct (ClipboardCollection.id r =? UpdateCollection.id input); auto.
  - intros l Hin. apply in_app_or in Hin as [Hin|[<-|[]]]; [now left|right].
    cbn. intros Hin. apply in_map_iff in Hin as (x & Hx & Hin).
    match goal with
    | Hf : existsb _ (ClipboardCollectionItems db) = false |- _ =>
        assert (Ht : existsb (fun r => ClipboardCollectionItem.id r =? uuid)
                       (ClipboardCollectionItems db) = true);
        [|congruence]
    end.
    apply existsb_exists. exists x. split; [exact Hin|].
    rewrite Hx. apply String.eqb_refl.
  - intros l Hin. apply filter_In in Hin as [Hin _]. now left.
Qed.

(** ** Requests of one user and rows of another *)

Lemma filter_update_other {R} (p cond : R -> bool) (set : R -> R) (l : list R) :
  (forall r, In r l -> cond r = true -> p r = false /\ p (set r) = false) ->
  filter p (map (fun r => if cond r then set r else r) l) = filter p l.
Proof.
  induction l as [|x l IH]; simpl; [reflexivity|].
  intros H. rewrite IH by (intros r Hr; apply H; now right).
  destruct (cond x) eqn:E; [|reflexivity].
  destruct (H x (or_introl eq_refl) E) as [-> ->]. reflexivity.
Qed.

Lemma filter_filter_other {R} (p q : R -> bool) (l : list R) :
  (forall r, In r l -> q r = false -> p r = false) ->
  filter p (filter q l) = filter p l.
Proof.
  induction l as [|x l IH]; simpl; [reflexivity|].
  intros H. specialize (IH (fun r Hr => H r (or_intror Hr))).
  destruct (q x) eqn:E; simpl; [now rewrite IH|].
  rewrite (H x (or_introl eq_refl) E). exact IH.
Qed.

Lemma existsb_update {R} (P cond : R -> bool) (set : R -> R) (l : list R) :
  (forall r, P (set r) = P r) ->
  existsb P (map (fun r => if cond r then set r else r) l) = existsb P l.
Proof.
  intros H. induction l as [|x l IH]; simpl; [reflexivity|].
  rewrite IH. destruct (cond x); [now rewrite H|reflexivity].
Qed.

Lemma ownsCollection_other db a c :
  consistent db ->
  In c (ClipboardCollections db) ->
  ClipboardCollection.userId c <> a ->
  ownsCollection a (ClipboardCollection.id c) db = false.
Proof.
  intros Hcons Hin Hne. unfold ownsCollection.
  destruct (existsb _ _) eqn:E; [|reflexivity].
  apply existsb_exists in E as (c' & Hc' & Hp).
  apply andb_true_iff in Hp as [H1 H2]. apply String.eqb_eq in H1, H2.
  rewrite (NoDup_map_eq ClipboardCollection.id _ c' c
             (collections_pk db Hcons) Hc' Hin H1) in H2.
  contradiction.
Qed.

(** X11: on a reachable database, a request leaves the rows of every user
    other than its caller exactly as they were: the items of that user, the
    collections of that user and the links of the collections of that user
    are the same lists before and after, whatever the request and whether or
    not it fails. *)
Theorem requests_leave_other_users_rows_alone :
  forall req context db a,
    reachable db ->
    (forall u, locals context = Some (mkLocals (Some u)) -> uid u <> a) ->
    let db' := final (server req context db) in
    itemsOf a db' = itemsOf a db /\
    collectionsOf a db' = collectionsOf a db /\
    linksOfUser a db' = linksOfUser a db.
Proof.
  intros req context db a Hreach Hother db'.
  pose proof (reachable_consistent db Hreach) as Hcons.
  pose proof (server_change req context db) as H. fold db' in H. clearbody db'.
  destruct H as [->|Hch]; [auto|].
  destruct Hch as [now uuid input u Hloc _ _
                  |input u it Hloc Hin Hid Hu
                  |now uuid input u Hloc _ _
                  |now input u c Hloc _ Hin Hid Hu
                  |now uuid input u c it Hloc Hcin Hcid Hcu _ _ _ _
                  |input u c it Hloc Hcin Hcid Hcu _ _ _];
    specialize (Hother u Hloc);
    unfold itemsOf, collectionsOf, linksOfUser; cbn.
  - split; [|auto].
    rewrite (filter_owner_snoc ClipboardItem.userId). cbn.
    apply String.eqb_neq in Hother. now rewrite Hother, app_nil_r.
  - split; [|auto].
    apply filter_update_other. intros r Hr Hc. apply String.eqb_eq in Hc.
    assert (r = it).
    { apply (NoDup_map_eq ClipboardItem.id _ r it (items_pk db Hcons) Hr Hin).
      congruence. }
    subst r. cbn. rewrite Hu. apply String.eqb_neq in Hother. auto.
  - split; [reflexivity|]. split.
    + rewrite (filter_owner_snoc ClipboardCollection.userId). cbn.
      apply String.eqb_neq in Hother. now rewrite Hother, app_nil_r.
    + apply filter_ext. intros l. unfold ownsCollection. cbn.
      rewrite existsb_app. cbn.
      apply String.eqb_neq in Hother. now rewrite Hother, andb_false_r, !orb_false_r.
  - split; [reflexivity|]. split.
    + apply filter_update_other. intros r Hr Hc. apply String.eqb_eq in Hc.
      assert (r = c).
      { apply (NoDup_map_eq ClipboardCollection.id _ r c
                 (collections_pk db Hcons) Hr Hin). congruence. }
      subst r. cbn. rewrite Hu. apply String.eqb_neq in Hother. auto.
    + apply filter_ext. intros l. unfold ownsCollection. cbn.
      apply existsb_update. reflexivity.
  - split; [reflexivity|]. split; [reflexivity|].
    unfold ownsCollection at 1. cbn. fold (ownsCollection a).
    rewrite filter_app. cbn.
    change (existsb
              (fun c0 => (ClipboardCollection.id c0 =? LinkInput.collectionId input)
                         && (ClipboardCollection.userId c0 =? a))
              (ClipboardCollections db))
      with (ownsCollection a (LinkInput.collectionId input) db).
    rewrite <- Hcid, (ownsCollection_other db a c Hcons Hcin) by congruence.
    apply app_nil_r.
  - split; [reflexivity|]. split; [reflexivity|].
    apply filter_filter_other. intros l Hl Hq.
    apply negb_false_iff, andb_true_iff in Hq as [Hq _].
    apply String.eqb_eq in Hq. cbn.
    change (existsb
              (fun c0 => (ClipboardCollection.id c0
                            =? ClipboardCollectionItem.collectionId l)
                         && (ClipboardCollection.userId c0 =? a))
              (ClipboardCollections db))
      with (ownsCollection a (ClipboardCollectionItem.collectionId l) db).
    rewrite Hq, <- Hcid. apply (ownsCollection_other db a c Hcons Hcin).
    congruence.
Qed.

Lemma requests_leave_other_users_rows_alone_witness :
  let req := RemoveItemFromCollectionReq (LinkInput.mk Demo.c1 Demo.i1) in
  ClipboardCollectionItems (final (server req Demo.alice Demo.db))
  <> ClipboardCollectionItems Demo.db /\
  itemsOf "bob" (final (server req Demo.alice Demo.db)) = itemsOf "bob" Demo.db /\
  linksOfUser "bob" (final (server req Demo.alice Demo.db))
  = linksOfUser "bob" Demo.db.
Proof.
  intros req. split; [vm_compute; discriminate|].
  destruct (requests_leave_other_users_rows_alone req Demo.alice Demo.db "bob"
              Demo_reachable) as (Hi & _ & Hl).
  - intros u [= <-]. discriminate.
  - split; [exact Hi|exact Hl].
Defined.

(** ** Listing an empty collection *)

(** X12: a [listCollectionItems] that returned has read the collections table
    and the links table; when the collection has no link it returned the empty
    listing with total 0 without reading the items table, and otherwise it read
    the items table as its third and last statement.  It never writes. *)
Theorem listCollectionItems_skips_items_when_no_links :
  forall input context db r,
    result (listCollectionItems input context db) = Ok r ->
    final (listCollectionItems input context db) = db /\
    (linksOf (ListCollectionItems.collectionId input) db = [] ->
     r = mkResponse true (mkListing [] 0) /\
     trace (listCollectionItems input context db)
     = [SELECT COLLECTIONS; SELECT LINKS]) /\
    (linksOf (ListCollectionItems.collectionId input) db <> [] ->
     trace (listCollectionItems input context db)
     = [SELECT COLLECTIONS; SELECT LINKS; SELECT ITEMS]).
Proof.
  intros input context db r.
  unfold listCollectionItems, defineAction.
  destruct (ListCollectionItems.schema input) as [p|] eqn:Es; [|discriminate].
  apply ListCollectionItems_schema_Some in Es as (-> & _).
  unfold bind. guards; try discriminate.
  unfold linksOf.
  destruct (filter _ (ClipboardCollectionItems db)) as [|l ls]; cbn.
  - intros [= <-]. split; [reflexivity|]. split; [auto|].
    intros H. now contradiction H.
  - intros _. split; [reflexivity|]. split; [discriminate|reflexivity].
Qed.

Lemma listCollectionItems_skips_items_when_no_links_witness :
  linksOf Demo.c2 Demo.db = [] /\
  listCollectionItems (ListCollectionItems.mk Demo.c2) Demo.bob Demo.db
  = mkOutcome (Ok (mkResponse true (mkListing [] 0))) Demo.db
      [SELECT COLLECTIONS; SELECT LINKS].
Proof.
  assert (Hno : linksOf Demo.c2 Demo.db = []) by (vm_compute; reflexivity).
  assert (H : result (listCollectionItems (ListCollectionItems.mk Demo.c2)
                        Demo.bob Demo.db)
              = Ok (mkResponse true (mkListing [] 0)))
    by (vm_compute; reflexivity).
  split; [exact Hno|].
  destruct (listCollectionItems_skips_items_when_no_links _ _ _ _ H)
    as (Hf & Hempty & _).
  destruct (Hempty Hno) as [_ Ht].
  destruct (listCollectionItems (ListCollectionItems.mk Demo.c2) Demo.bob Demo.db)
    as [res fin tr].
  cbn in *. now subst.
Defined.

(** ** A foreign id and a missing id *)

Lemma getOwnedItem_missing db missing b :
  ~ In missing (map ClipboardItem.id (ClipboardItems db)) ->
  getOwnedItem missing b db = mkOutcome (Throw NOT_FOUND) db [SELECT ITEMS].
Proof.
  intros Hmiss.
  destruct (getOwnedItem_cases missing b db)
    as [(it & _ & Hit & Hid & _) | (E & _)]; [|exact E].
  exfalso. apply Hmiss. rewrite <- Hid. now apply in_map.
Qed.

Lemma getOwnedCollection_missing db missing b :
  ~ In missing (map ClipboardCollection.id (ClipboardCollections db)) ->
  getOwnedCollection missing b db
  = mkOutcome (Throw NOT_FOUND) db [SELECT COLLECTIONS].
Proof.
  intros Hmiss.
  destruct (getOwnedCollection_cases missing b db)
    as [(c & _ & Hc & Hid & _) | (E & _)]; [|exact E].
  exfalso. apply Hmiss. rewrite <- Hid. now apply in_map.
Qed.

(** X13: on a reachable database a caller cannot tell the id of a row of
    another user from an id that names no row.  The two ownership guards give
    the same outcome for both, and so do [updateClipboardItem] (whatever
    fields are supplied) and [listCollectionItems], the missing id being any
    non-empty string. *)
Theorem foreign_id_looks_like_missing_id :
  forall db a b,
    reachable db -> a <> b ->
    (forall i missing,
        In i (ClipboardItems db) -> ClipboardItem.userId i = a ->
        ~ In missing (map ClipboardItem.id (ClipboardItems db)) ->
        getOwnedItem (ClipboardItem.id i) b db = getOwnedItem missing b db /\
        (min1 missing = true ->
         forall ct c np sa sd ip ia lc,
           updateClipboardItem
             (UpdateClipboardItem.mk (ClipboardItem.id i) ct c np sa sd ip ia lc)
             (signedIn b) db
           = updateClipboardItem
               (UpdateClipboardItem.mk missing ct c np sa sd ip ia lc)
               (signedIn b) db)) /\
    (forall c missing,
        In c (ClipboardCollections db) -> ClipboardCollection.userId c = a ->
        ~ In missing (map ClipboardCollection.id (ClipboardCollections db)) ->
        getOwnedCollection (ClipboardCollection.id c) b db
        = getOwnedCollection missing b db /\
        (min1 missing = true ->
         listCollectionItems (ListCollectionItems.mk (ClipboardCollection.id c))
           (signedIn b) db
         = listCollectionItems (ListCollectionItems.mk missing) (signedIn b) db)).
Proof.
  intros db a b Hreach Hab.
  pose proof (reachable_consistent db Hreach) as Hcons. split.
  - intros i missing Hin Ha Hmiss.
    pose proof (getOwnedItem_foreign db a b i Hcons Hin Ha Hab) as E1.
    pose proof (getOwnedItem_missing db missing b Hmiss) as E2.
    split; [congruence|].
    intros Hm ct c np sa sd ip ia lc.
    unfold updateClipboardItem, defineAction, UpdateClipboardItem.schema.
    cbn [UpdateClipboardItem.id].
    rewrite Hm, (min1_isUUID _ (items_uuid db Hcons i Hin)).
    unfold UpdateClipboardItem.refine.
    cbn [UpdateClipboardItem.contentType UpdateClipboardItem.content
         UpdateClipboardItem.normalizedPreview UpdateClipboardItem.sourceApp
         UpdateClipboardItem.sourceDevice UpdateClipboardItem.isPinned
         UpdateClipboardItem.isArchived UpdateClipboardItem.lastCopiedAt andb].
    destruct (optional zDate lc); [|reflexivity].
    destruct (defined ct || defined c || defined np || defined sa || defined sd
              || defined ip || defined ia || defined lc); [|reflexivity].
    cbn beta iota delta [andb].
    unfold bind. rewrite !requireUser_signedIn. cbn.
    rewrite E1, E2. reflexivity.
  - intros c missing Hin Ha Hmiss.
    pose proof (getOwnedCollection_foreign db a b c Hcons Hin Ha Hab) as E1.
    pose proof (getOwnedCollection_missing db missing b Hmiss) as E2.
    split; [congruence|].
    intros Hm.
    unfold listCollectionItems, defineAction, ListCollectionItems.schema.
    cbn [ListCollectionItems.collectionId].
    rewrite Hm, (min1_isUUID _ (collections_uuid db Hcons c Hin)).
    unfold bind. rewrite !requireUser_signedIn. cbn.
    rewrite E1, E2. reflexivity.
Qed.

Lemma foreign_id_looks_like_missing_id_witness :
  updateClipboardItem
    (UpdateClipboardItem.mk Demo.i1 None None None None None (Some false) None None)
    Demo.bob Demo.db
  = updateClipboardItem
      (UpdateClipboardItem.mk "no-such-id" None None None None None (Some false)
         None None)
      Demo.bob Demo.db.
Proof.
  assert (Hne : "alice" <> "bob") by discriminate.
  destruct (foreign_id_looks_like_missing_id Demo.db "alice" "bob"
              Demo_reachable Hne) as [Hitems _].
  destruct (Hitems Demo.first_row "no-such-id") as [_ Hupd].
  - vm_compute. auto.
  - reflexivity.
  - vm_compute. intuition discriminate.
  - apply Hupd. reflexivity.
Defined.

(** ** Repeating a request *)

Lemma filter_idem {R} (p : R -> bool) (l : list R) :
  filter p (filter p l) = filter p l.
Proof.
  induction l as [|x l IH]; simpl; [reflexivity|].
  destruct (p x) eqn:E; simpl; [rewrite E|]; now rewrite ?IH.
Qed.

(** X14: [removeItemFromCollection] repeated by the same caller right after
    it returned throws NOT_FOUND, the pair having no link left, and leaves the
    database as the first removal left it. *)
Theorem removeItemFromCollection_again_is_not_found :
  forall input context db r,
    result (removeItemFromCollection input context db) = Ok r ->
    let db' := final (removeItemFromCollection input context db) in
    result (removeItemFromCollection input context db') = Throw NOT_FOUND /\
    final (removeItemFromCollection input context db') = db'.
Proof.
  intros input context db r Hr db'.
  destruct (removeItemFromCollection_Ok _ _ _ _ Hr)
    as (u & c & i & Hloc & Hm1 & Hm2 & Hcin & Hcid & Hcu & Hiin & Hiid & Hiu).
  destruct (removeItemFromCollection_owner input context db u c i
              Hm1 Hm2 Hloc Hcin Hcid Hcu Hiin Hiid Hiu) as [Hfinal _].
  subst db'. rewrite Hfinal. cbn.
  destruct (removeItemFromCollection_owner input context
              (mkDb (ClipboardItems db) (ClipboardCollections db)
                 (filter
                    (fun l =>
                       negb ((ClipboardCollectionItem.collectionId l
                                =? LinkInput.collectionId input)
                             && (ClipboardCollectionItem.itemId l
                                   =? LinkInput.itemId input)))
                    (ClipboardCollectionItems db)))
              u c i Hm1 Hm2 Hloc Hcin Hcid Hcu Hiin Hiid Hiu) as [Hfinal' Hres'].
  rewrite Hfinal', Hres'. unfold linksBetween. cbn.
  rewrite filter_filter_negb, filter_idem. auto.
Qed.

Lemma removeItemFromCollection_again_is_not_found_witness :
  let input := LinkInput.mk Demo.c1 Demo.i2 in
  let db' := final (removeItemFromCollection input Demo.alice Demo.db) in
  result (removeItemFromCollection input Demo.alice Demo.db)
  = Ok (mkResponse true tt) /\
  result (removeItemFromCollection input Demo.alice db') = Throw NOT_FOUND.
Proof.
  intros input db'.
  assert (H : result (removeItemFromCollection input Demo.alice Demo.db)
              = Ok (mkResponse true tt)) by (vm_compute; reflexivity).
  split; [exact H|].
  exact (proj1 (removeItemFromCollection_again_is_not_found _ _ _ _ H)).
Defined.

Lemma setClipboardItem_idem input r :
  setClipboardItem input (setClipboardItem input r) = setClipboardItem input r.
Proof.
  unfold setClipboardItem, setIfDefined, orElse. cbn.
  destruct input as [i ct c np sa sd ip ia lc]; cbn.
  destruct ct, c, np, sa, sd, ip, ia, lc; reflexivity.
Qed.

Lemma map_update_idem {R} (cond : R -> bool) (set : R -> R) (l : list R) :
  (forall r, cond (set r) = cond r) ->
  (forall r, set (set r) = set r) ->
  map (fun r => if cond r then set r else r)
      (map (fun r => if cond r then set r else r) l)
  = map (fun r => if cond r then set r else r) l.
Proof.
  intros Hc Hs. rewrite map_map. apply map_ext. intros r.
  destruct (cond r) eqn:E; [rewrite Hc, E; apply Hs|now rewrite E].
Qed.

Lemma updateClipboardItem_Ok input context db r :
  result (updateClipboardItem input context db) = Ok r ->
  exists u it,
    UpdateClipboardItem.schema input = Some input /\
    locals context = Some (mkLocals (Some u)) /\
    In it (ClipboardItems db) /\
    ClipboardItem.id it = UpdateClipboardItem.id input /\
    ClipboardItem.userId it = uid u.
Proof.
  unfold updateClipboardItem, defineAction.
  destruct (UpdateClipboardItem.schema input) as [p|] eqn:Es; [|discriminate].
  apply UpdateClipboardItem_schema_Some in Es as (-> & _ & _).
  unfold bind. guards; try discriminate.
  intros _. exists u, it. auto.
Qed.

Lemma updateClipboardItem_owner input context db u it :
  UpdateClipboardItem.schema input = Some input ->
  locals context = Some (mkLocals (Some u)) ->
  In it (ClipboardItems db) ->
  ClipboardItem.id it = UpdateClipboardItem.id input ->
  ClipboardItem.userId it = uid u ->
  let cond := fun i => ClipboardItem.id i =? UpdateClipboardItem.id input in
  result (updateClipboardItem input context db)
  = Ok (mkResponse true
          (first (map (setClipboardItem input) (filter cond (ClipboardItems db)))))
  /\
  final (updateClipboardItem input context db)
  = put ItemsT
      (map (fun r => if cond r then setClipboardItem input r else r)
           (ClipboardItems db)) db.
Proof.
  intros Hs Hloc Hin Hid Hu cond.
  unfold updateClipboardItem, defineAction. rewrite Hs.
  unfold bind. rewrite (requireUser_locals _ _ _ Hloc). cbn.
  guards.
  - auto.
  - exfalso. exact (Hino it Hin Hid Hu).
Qed.

(** X15: [updateClipboardItem] is idempotent: sent again by the same caller
    right after it returned, the same input returns the same row and leaves
    the database as the first update left it. *)
Theorem updateClipboardItem_again_changes_nothing :
  forall input context db r,
    result (updateClipboardItem input context db) = Ok r ->
    let db' := final (updateClipboardItem input context db) in
    result (updateClipboardItem input context db') = Ok r /\
    final (updateClipboardItem input context db') = db'.
Proof.
  intros input context db r Hr db'.
  destruct (updateClipboardItem_Ok _ _ _ _ Hr) as (u & it & Hs & Hloc & Hin & Hid & Hu).
  destruct (updateClipboardItem_owner input context db u it Hs Hloc Hin Hid Hu)
    as [Hres Hfinal].
  set (cond := fun i => ClipboardItem.id i =? UpdateClipboardItem.id input) in *.
  subst db'. rewrite Hfinal. rewrite Hres in Hr. injection Hr as <-.
  match goal with
  | |- context [updateClipboardItem input context ?d] => set (db1 := d)
  end.
  destruct (updateClipboardItem_owner input context db1
              u (setClipboardItem input it) Hs Hloc) as [Hres' Hfinal'].
  { subst db1. cbn. apply in_map_iff. exists it. split; [|exact Hin].
    unfold cond. now rewrite Hid, String.eqb_refl. }
  { exact Hid. }
  { exact Hu. }
  fold cond in Hres', Hfinal'. rewrite Hres', Hfinal'. subst db1. cbn.
  rewrite (filter_update (setClipboardItem input) cond) by reflexivity.
  rewrite (map_update_idem cond (setClipboardItem input))
    by (reflexivity || apply setClipboardItem_idem).
  split; [|reflexivity].
  destruct (filter cond (ClipboardItems db)) as [|x rest]; cbn; [reflexivity|].
  now rewrite setClipboardItem_idem.
Qed.

Lemma updateClipboardItem_again_changes_nothing_witness :
  let input :=
    UpdateClipboardItem.mk Demo.i3 None (Some "third, edited") None None None
      (Some true) None None in
  let db' := final (updateClipboardItem input Demo.alice Demo.db) in
  exists r,
    result (updateClipboardItem input Demo.alice Demo.db) = Ok r /\
    db' <> Demo.db /\
    result (updateClipboardItem input Demo.alice db') = Ok r /\
    final (updateClipboardItem input Demo.alice db') = db'.
Proof.
  intros input db'. eexists.
  match goal with
  | |- ?A /\ _ => assert (H : A) by (vm_compute; reflexivity)
  end.
  split; [exact H|]. split; [vm_compute; discriminate|].
  exact (updateClipboardItem_again_changes_nothing _ _ _ _ H).
Defined.

(** ** The owner's view *)

Lemma filter_key_unique {R} (key : R -> string) (l : list R) (x : R) :
  NoDup (map key l) -> In x l ->
  filter (fun r => key r =? key x) l = [x].
Proof.
  induction l as [|y l IH]; simpl; [intros _ []|].
  intros Hnd Hin. inversion Hnd as [|? ? Hnotin Hnd']; subst.
  destruct Hin as [->|Hin].
  - rewrite String.eqb_refl. f_equal.
    destruct (filter _ l) as [|z zs] eqn:E; [reflexivity|].
    exfalso. apply Hnotin.
    assert (Hz : In z (filter (fun r => key r =? key x) l))
      by (rewrite E; now left).
    apply filter_In in Hz as [Hz Hk]. apply String.eqb_eq in Hk.
    rewrite <- Hk. now apply in_map.
  - destruct (key y =? key x) eqn:E.
    + exfalso. apply Hnotin. apply String.eqb_eq in E. rewrite E.
      now apply in_map.
    + now apply IH.
Qed.

Lemma getOwnedItem_own db i :
  consistent db -> In i (ClipboardItems db) ->
  getOwnedItem (ClipboardItem.id i) (ClipboardItem.userId i) db
  = mkOutcome (Ok i) db [SELECT ITEMS].
Proof.
  intros Hcons Hin.
  destruct (getOwnedItem_cases (ClipboardItem.id i) (ClipboardItem.userId i) db)
    as [(it & E & Hit & Hid & _) | (_ & Hno)].
  - rewrite (NoDup_map_eq ClipboardItem.id _ it i (items_pk db Hcons) Hit Hin Hid)
      in E. exact E.
  - exfalso. now apply (Hno i Hin).
Qed.

Lemma getOwnedCollection_own db c :
  consistent db -> In c (ClipboardCollections db) ->
  getOwnedCollection (ClipboardCollection.id c) (ClipboardCollection.userId c) db
  = mkOutcome (Ok c) db [SELECT COLLECTIONS].
Proof.
  intros Hcons Hin.
  destruct (getOwnedCollection_cases (ClipboardCollection.id c)
              (ClipboardCollection.userId c) db)
    as [(c' & E & Hc' & Hid & _) | (_ & Hno)].
  - rewrite (NoDup_map_eq ClipboardCollection.id _ c' c
               (collections_pk db Hcons) Hc' Hin Hid) in E. exact E.
  - exfalso. now apply (Hno c Hin).
Qed.

(** X16: on a reachable database the two ownership guards, asked for the id
    of a row, return that very row to its owner and throw NOT_FOUND to every
    other user, reading their table once and writing nothing. *)
Theorem ownership_guards_find_the_row_for_its_owner_only :
  forall db,
    reachable db ->
    (forall i, In i (ClipboardItems db) ->
       forall u,
         getOwnedItem (ClipboardItem.id i) u db
         = mkOutcome (if u =? ClipboardItem.userId i then Ok i else Throw NOT_FOUND)
                     db [SELECT ITEMS]) /\
    (forall c, In c (ClipboardCollections db) ->
       forall u,
         getOwnedCollection (ClipboardCollection.id c) u db
         = mkOutcome (if u =? ClipboardCollection.userId c
                      then Ok c else Throw NOT_FOUND)
                     db [SELECT COLLECTIONS]).
Proof.
  intros db Hreach. pose proof (reachable_consistent db Hreach) as Hcons. split.
  - intros i Hin u. destruct (u =? ClipboardItem.userId i) eqn:E.
    + apply String.eqb_eq in E. subst u. now apply getOwnedItem_own.
    + apply String.eqb_neq in E.
      apply (getOwnedItem_foreign db (ClipboardItem.userId i) u i); auto.
  - intros c Hin u. destruct (u =? ClipboardCollection.userId c) eqn:E.
    + apply String.eqb_eq in E. subst u. now apply getOwnedCollection_own.
    + apply String.eqb_neq in E.
      apply (getOwnedCollection_foreign db (ClipboardCollection.userId c) u c); auto.
Qed.

Lemma ownership_guards_find_the_row_for_its_owner_only_witness :
  getOwnedItem Demo.i2 "alice" Demo.db
  = mkOutcome (Ok Demo.second_row) Demo.db [SELECT ITEMS] /\
  getOwnedCollection Demo.c1 "bob" Demo.db
  = mkOutcome (Throw NOT_FOUND) Demo.db [SELECT COLLECTIONS].
Proof.
  destruct (ownership_guards_find_the_row_for_its_owner_only Demo.db Demo_reachable)
    as [Hi Hc].
  split.
  - apply (Hi Demo.second_row). vm_compute. auto.
  - apply (Hc Demo.work_row). vm_compute. auto.
Defined.

(** X17: on a reachable database the owner's update goes through.  For an
    item of the caller, [updateClipboardItem] with at least one field
    supplied, a supplied [lastCopiedAt] being a valid date and the supplied
    texts being without the NUL character, returns that item with the
    supplied fields written; for a collection of the caller,
    [updateCollection] with at least one field supplied, no empty name and
    such texts returns that collection with the supplied fields and
    [updatedAt] written.  Each reads its table once and then updates it. *)
Theorem owner_update_returns_the_updated_row :
  forall db u,
    reachable db ->
    (forall i input,
        In i (ClipboardItems db) -> ClipboardItem.userId i = u ->
        UpdateClipboardItem.id input = ClipboardItem.id i ->
        UpdateClipboardItem.refine input = true ->
        optional zDate (UpdateClipboardItem.lastCopiedAt input) = true ->
        noNulUpdateClipboardItem input = true ->
        result (updateClipboardItem input (signedIn u) db)
        = Ok (mkResponse true (Some (setClipboardItem input i))) /\
        trace (updateClipboardItem input (signedIn u) db)
        = [SELECT ITEMS; UPDATE ITEMS]) /\
    (forall c now input,
        In c (ClipboardCollections db) -> ClipboardCollection.userId c = u ->
        UpdateCollection.id input = ClipboardCollection.id c ->
        UpdateCollection.refine input = true ->
        UpdateCollection.name input <> Some "" ->
        noNulUpdateCollection input = true ->
        result (updateCollection now input (signedIn u) db)
        = Ok (mkResponse true (Some (setCollection now input c))) /\
        trace (updateCollection now input (signedIn u) db)
        = [SELECT COLLECTIONS; UPDATE COLLECTIONS]).
Proof.
  intros db u Hreach. pose proof (reachable_consistent db Hreach) as Hcons. split.
  - intros i input Hin Hu Hid Href Hdate _.
    unfold updateClipboardItem, defineAction, UpdateClipboardItem.schema.
    rewrite Hid, (min1_isUUID _ (items_uuid db Hcons i Hin)), Hdate, Href.
    cbn beta iota delta [andb].
    unfold bind. rewrite requireUser_signedIn. cbn.
    rewrite Hid, <- Hu, (getOwnedItem_own db i Hcons Hin). cbn.
    rewrite (filter_key_unique ClipboardItem.id _ i (items_pk db Hcons) Hin).
    auto.
  - intros c now input Hin Hu Hid Href Hname _.
    unfold updateCollection, defineAction, UpdateCollection.schema.
    rewrite Hid, (min1_isUUID _ (collections_uuid db Hcons c Hin)), Href.
    assert (Hn : match UpdateCollection.name input with
                 | Some n => min1 n
                 | None => true
                 end = true).
    { destruct (UpdateCollection.name input) as [[|ch n]|];
        try reflexivity. now contradiction Hname. }
    rewrite Hn. cbn.
    unfold bind. rewrite requireUser_signedIn. cbn.
    rewrite Hid, <- Hu, (getOwnedCollection_own db c Hcons Hin). cbn.
    rewrite (filter_key_unique ClipboardCollection.id _ c
               (collections_pk db Hcons) Hin).
    auto.
Qed.

Lemma owner_update_returns_the_updated_row_witness :
  let input :=
    UpdateClipboardItem.mk Demo.i2 None (Some "second, edited") None None None
      None (Some true) (Some 905%Z) in
  result (updateClipboardItem input Demo.alice Demo.db)
  = Ok (mkResponse true (Some (setClipboardItem input Demo.second_row))).
Proof.
  intros input.
  destruct (owner_update_returns_the_updated_row Demo.db "alice" Demo_reachable)
    as [Hi _].
  apply (Hi Demo.second_row input).
  - vm_compute. auto.
  - reflexivity.
  - reflexivity.
  - reflexivity.
  - reflexivity.
  - reflexivity.
Defined.

Lemma rows_persist_with_their_owner_witness :
  let req := AddItemToCollectionReq 904%Z "00000000-0000-4000-8000-0000000000d8"
               (LinkInput.mk Demo.c1 Demo.i3) in
  let l := ClipboardCollectionItem.mk "00000000-0000-4000-8000-0000000000d8"
             Demo.c1 Demo.i3 904%Z in
  In l (ClipboardCollectionItems (final (server req Demo.alice Demo.db))) /\
  (In l (ClipboardCollectionItems Demo.db) \/
   ~ In (ClipboardCollectionItem.id l)
        (map ClipboardCollectionItem.id (ClipboardCollectionItems Demo.db))).
Proof.
  intros req l.
  assert (H : In l (ClipboardCollectionItems (final (server req Demo.alice Demo.db))))
    by (vm_compute; auto).
  split; [exact H|].
  exact (proj2 (proj2 (rows_persist_with_their_owner req Demo.alice Demo.db)) l H).
Defined.
